(** * imd_grd_to_nc: conversion of IMD GRD files to NetCDF

    A shallow embedding of [bin/imd_grd_to_nc.py] and the properties of its
    pipeline: input inference ([get_input]), validation ([check_input]),
    output resolution ([check_output]), decoding ([read_data]) and
    emission ([write_data]).

    Conventions of the embedding:
    - a Python [str] is the [string] of its characters.  The letters
      [re.IGNORECASE] folds are the ASCII letters here.  On a byte string
      of Python 2 that is all of it; on a [str] of Python 3 the flag also
      takes U+0130 and U+0131 for an [i], so a statement that rests on a
      name not matching is made for names in ASCII ([is_ascii]);
    - a Python [int] is a [Z];
    - [sys.exit(1)] after a message on [stderr] is the outcome [Exit 1 msg];
      an exception nobody catches is the outcome [Uncaught];
    - the operating system is a record of what the program asks of it:
      [os.path.getsize] (defined exactly where [os.path.exists] holds),
      [os.path.abspath], the bytes [open(..., 'rb')] gives, and whether
      [nc.Dataset(..., 'w')] can create its file. *)

From Stdlib Require Import ZArith QArith Qround Qpower Qfield.
From Stdlib Require Import Ascii String List SpecFloat Lia.
From Stdlib.Strings Require Import Byte.
From stdpp Require Import base option list strings gmap pretty.

Local Open Scope Z_scope.

(** ** Outcomes of a pipeline stage *)

Inductive result (A : Type) : Type :=
| Ok (a : A)
| Exit (status : Z) (stderr : string)
| Uncaught (exn : string).
Arguments Ok {A} a.
Arguments Exit {A} status stderr.
Arguments Uncaught {A} exn.

Definition bind {A B : Type} (r : result A) (k : A -> result B) : result B :=
  match r with
  | Ok a => k a
  | Exit st msg => Exit st msg
  | Uncaught e => Uncaught e
  end.

Notation "x <-- r ;; k" := (bind r (fun x => k))
  (at level 100, r at next level, right associativity).

(** [if cond: sys.stderr.write(msg); sys.exit(1)] *)
Definition exit_if (cond : bool) (msg : string) : result unit :=
  if cond then Exit 1 msg else Ok tt.

Definition is_exit {A : Type} (r : result A) : Prop :=
  exists msg, r = Exit 1 msg.

(** Truthiness of an optional command-line value, as [if prog_options.x:]
    tests it: [None], the empty string and the integer zero are false. *)
Definition truthy_str (o : option string) : option string :=
  match o with
  | Some s => if decide (s = "") then None else Some s
  | None => None
  end.

Definition truthy_int (o : option Z) : option Z :=
  match o with
  | Some z => if decide (z = 0) then None else Some z
  | None => None
  end.

(** ** The fragment of Python's [re] the program uses *)

Module Re.

(** One character position of a pattern. *)
Inductive cclass : Type :=
| CLit (c : ascii)            (* a literal character *)
| CAny                        (* [.], any character except a line feed *)
| CRange (lo hi : ascii)      (* [[lo-hi]] *)
| CNot (c : ascii).           (* [[^c]] *)

Inductive quant : Type :=
| QOne                        (* no quantifier *)
| QStar                       (* [*], greedy *)
| QPlus                       (* [+], greedy *)
| QExactly (n : nat).         (* [{n}] *)

Inductive item : Type :=
| ICls (c : cclass) (q : quant)
| IEnd.                       (* [$] *)

Definition pattern : Type := list item.

Definition line_feed : ascii := "010"%char.

Definition is_upper (x : ascii) : bool :=
  (65 <=? nat_of_ascii x)%nat && (nat_of_ascii x <=? 90)%nat.

(** The lower case of an ASCII letter; other characters stay. *)
Definition lower (x : ascii) : ascii :=
  if is_upper x then ascii_of_nat (nat_of_ascii x + 32) else x.

(** [ic] is the flag [re.IGNORECASE], for the ASCII letters of the
    patterns of this program and a text in ASCII. *)
Definition lit_match (ic : bool) (c x : ascii) : bool :=
  if ic then bool_decide (lower x = lower c) else bool_decide (x = c).

Definition cls_match (ic : bool) (c : cclass) (x : ascii) : bool :=
  match c with
  | CLit c => lit_match ic c x
  | CAny => negb (bool_decide (x = line_feed))
  | CRange lo hi =>
      (nat_of_ascii lo <=? nat_of_ascii x)%nat
      && (nat_of_ascii x <=? nat_of_ascii hi)%nat
  | CNot c => negb (lit_match ic c x)
  end.

(** [$] without [re.MULTILINE]: at the end of the string, or just before a
    line feed that is its last character. *)
Definition at_end (s : list ascii) : bool :=
  match s with
  | [] => true
  | [x] => bool_decide (x = line_feed)
  | _ => false
  end.

(** A greedy repetition followed by the continuation [k]: the longest run
    is tried first, and a shorter one when the continuation fails. *)
Fixpoint greedy (f : ascii -> bool) (k : list ascii -> option (list ascii))
    (s : list ascii) : option (list ascii) :=
  match s with
  | x :: s' =>
      if f x then
        match greedy f k s' with
        | Some r => Some r
        | None => k s
        end
      else k s
  | [] => k s
  end.

Fixpoint exactly (f : ascii -> bool) (n : nat)
    (k : list ascii -> option (list ascii)) (s : list ascii)
    : option (list ascii) :=
  match n with
  | O => k s
  | S n' =>
      match s with
      | x :: s' => if f x then exactly f n' k s' else None
      | [] => None
      end
  end.

(** Match [p] at the start of [s]; the result is what is left of [s]
    after the match the backtracking search finds first. *)
Fixpoint match_here (ic : bool) (p : pattern) (s : list ascii)
    : option (list ascii) :=
  match p with
  | [] => Some s
  | IEnd :: p' => if at_end s then match_here ic p' s else None
  | ICls c q :: p' =>
      let f := cls_match ic c in
      let k := match_here ic p' in
      match q with
      | QOne => exactly f 1 k s
      | QStar => greedy f k s
      | QPlus => exactly f 1 (greedy f k) s
      | QExactly n => exactly f n k s
      end
  end.

(** The text of a match that starts at the head of [s] and leaves [rest]. *)
Definition matched (s rest : list ascii) : list ascii :=
  take (length s - length rest)%nat s.

(** [re.match(p, s)]: the matched text ([group(0)]) or [None]. *)
Definition re_match (ic : bool) (p : pattern) (s : string) : option string :=
  let l := list_ascii_of_string s in
  match match_here ic p l with
  | Some rest => Some (string_of_list_ascii (matched l rest))
  | None => None
  end.

Fixpoint search_from (ic : bool) (p : pattern) (s : list ascii)
    : option (list ascii) :=
  match match_here ic p s with
  | Some rest => Some (matched s rest)
  | None =>
      match s with
      | _ :: s' => search_from ic p s'
      | [] => None
      end
  end.

(** [re.search(p, s)]: the text of the leftmost match or [None]. *)
Definition re_search (ic : bool) (p : pattern) (s : string) : option string :=
  string_of_list_ascii <$> search_from ic p (list_ascii_of_string s).

(** [re.sub]: [skip] counts the characters that still belong to the match
    replaced last.  The patterns of this program match at least two
    characters; a match of no character is replaced and the scan moves on
    by one character. *)
Fixpoint sub_from (ic : bool) (p : pattern) (repl : list ascii)
    (skip : nat) (s : list ascii) : list ascii :=
  match skip with
  | S n =>
      match s with
      | _ :: s' => sub_from ic p repl n s'
      | [] => []
      end
  | O =>
      match match_here ic p s with
      | Some rest =>
          repl ++
          match s with
          | x :: s' =>
              match (length s - length rest)%nat with
              | O => x :: sub_from ic p repl 0 s'
              | S n => sub_from ic p repl n s'
              end
          | [] => []
          end
      | None =>
          match s with
          | x :: s' => x :: sub_from ic p repl 0 s'
          | [] => []
          end
      end
  end.

(** [re.sub(p, repl, s)] *)
Definition re_sub (ic : bool) (p : pattern) (repl s : string) : string :=
  string_of_list_ascii
    (sub_from ic p (list_ascii_of_string repl) 0 (list_ascii_of_string s)).

Definition lit (s : string) : pattern :=
  (fun c => ICls (CLit c) QOne) <$> list_ascii_of_string s.

(** [r'.*max.*'] *)
Definition pat_max : pattern :=
  [ICls CAny QStar] ++ lit "max" ++ [ICls CAny QStar].
(** [r'.*min.*'] *)
Definition pat_min : pattern :=
  [ICls CAny QStar] ++ lit "min" ++ [ICls CAny QStar].
(** [r'[0-9]{4}'] *)
Definition pat_year : pattern :=
  [ICls (CRange "0" "9") (QExactly 4)].
(** [r'\.[^\.]+$'] *)
Definition pat_ext : pattern :=
  [ICls (CLit ".") QOne; ICls (CNot ".") QPlus; IEnd].
(** [r'.*\.[^\.]+$'] *)
Definition pat_has_ext : pattern :=
  ICls CAny QStar :: pat_ext.

End Re.

(** ** Strings and paths *)

(** The line feed that ends every line written to [stderr]. *)
Definition nl : string := String Re.line_feed "".

(** [s.rfind(c)]: the index of the last [c] in [s], [-1] when there is none. *)
Fixpoint rfind (c : ascii) (s : string) : Z :=
  match s with
  | EmptyString => -1
  | String x s' =>
      let r := rfind c s' in
      if r =? -1 then (if bool_decide (x = c) then 0 else -1) else r + 1
  end.

(** [s[i:]] for [0 <= i]. *)
Definition str_from (i : Z) (s : string) : string :=
  string_of_list_ascii (drop (Z.to_nat i) (list_ascii_of_string s)).

(** [os.path.basename] of [posixpath]: [i = p.rfind('/') + 1; return p[i:]]. *)
Definition basename (p : string) : string :=
  let i := rfind "/" p + 1 in
  str_from i p.

(** All characters of [s] are ASCII characters. *)
Definition is_ascii (s : string) : bool :=
  forallb (fun c => (nat_of_ascii c <? 128)%nat) (list_ascii_of_string s).

(** [int(s)] for a string of decimal digits. *)
Definition digit_val (c : ascii) : Z := Z.of_nat (nat_of_ascii c) - 48.

Definition int_of_digits (s : string) : Z :=
  fold_left (fun acc c => 10 * acc + digit_val c) (list_ascii_of_string s) 0.

(** ** Global tables *)

Definition MIN_YEAR : Z := 1900.
Definition MAX_YEAR : Z := 2100.

(** [np.arange(start, stop, step)]: [ceil((stop - start) / step)] values
    [start + k * step].  The bounds and steps below are multiples of 1/4,
    for which the floating point sums are exact. *)
Definition arange (start stop step : Q) : list Q :=
  (fun k => start + inject_Z (Z.of_nat k) * step)%Q
    <$> seq 0 (Z.to_nat (Qceiling ((stop - start) / step))).

(** An entry of [DATA_TYPES].  [fill] is the number the source writes:
    [-999] and [99.9] are kept as these decimals, not as the floating point
    numbers nearest to them. *)
Record DatasetSpec : Type := {
  lats : list Q;
  lons : list Q;
  nc_var : string;
  nc_units : string;
  fill : Q
}.

Definition DATA_TYPES : gmap string DatasetSpec :=
  <["rain" := {| lats := arange 6.5 38.75 0.25;
                 lons := arange 66.5 100.25 0.25;
                 nc_var := "rainfall";
                 nc_units := "mm";
                 fill := -999 |}]>
  (<["mintemp" := {| lats := arange 7.5 38.5 1;
                     lons := arange 67.5 98.5 1;
                     nc_var := "min_temp";
                     nc_units := "celsius";
                     fill := 99.9 |}]>
  (<["maxtemp" := {| lats := arange 7.5 38.5 1;
                     lons := arange 67.5 98.5 1;
                     nc_var := "max_temp";
                     nc_units := "celsius";
                     fill := 99.9 |}]> ∅)).

Record NcConfig : Type := {
  file_ext : string;
  time_var : string;
  lat_var : string;
  lat_units : string;
  lon_var : string;
  lon_units : string;
  calendar : string;
  comp_level : Z
}.

Definition NC_CONFIG : NcConfig := {|
  file_ext := ".nc";
  time_var := "time";
  lat_var := "latitude";
  lat_units := "degrees_north";
  lon_var := "longitude";
  lon_units := "degrees_east";
  calendar := "standard";
  comp_level := 3
|}.

(** [d[k]] on a dict: a missing key raises [KeyError]. *)
Definition dict_get {V : Type} (d : gmap string V) (k : string) : result V :=
  match d !! k with
  | Some v => Ok v
  | None => Uncaught "KeyError"
  end.

(** ** Program options and the operating system *)

(** The namespace [argparse] returns; [None] is an option left out. *)
Record Options : Type := {
  opt_infile : string;
  opt_outfile : option string;
  opt_clobber : bool;
  opt_type : option string;
  opt_year : option Z;
  opt_ncvar : option string;
  opt_ncunits : option string
}.

(** [--type] has [choices=DATA_TYPES.keys()]. *)
Definition options_wf (o : Options) : Prop :=
  match opt_type o with
  | Some t => is_Some (DATA_TYPES !! t)
  | None => True
  end.

Record FileSystem : Type := {
  (** [os.path.getsize]; [None] where [os.path.exists] is false *)
  fs_getsize : string -> option Z;
  (** [os.path.abspath] *)
  fs_abspath : string -> string;
  (** the bytes of the file [open(path, 'rb')] reads *)
  fs_open : string -> option (list byte);
  (** the exception [nc.Dataset(path, 'w')] raises when it cannot create
      the file (no such directory, no permission); [None] when it can *)
  fs_create : string -> option string
}.

(** The dict [prog_input] of [get_input] and [check_input]. *)
Record ProgInput : Type := {
  in_filename : string;
  in_size : Z;
  in_type : string;
  in_days : Z;
  in_year : Z;
  in_year_match : bool
}.

(** ** Input inference: [get_input] *)

(** The [if]/[elif] chain on the file size. *)
Definition size_type_days (input_size : Z) : result (string * Z) :=
  if input_size =? 25425901 then Ok ("rain", 365)
  else if input_size =? 25495561 then Ok ("rain", 366)
  else if input_size =? 1403061 then Ok ("temp", 365)
  else if input_size =? 1406905 then Ok ("temp", 366)
  else Exit 1 ("Invalid input file size" +:+ nl).

(** The two [re.match] tests on the base name, run one after the other on
    whatever type the size gave. *)
Definition guess_temp_type (name : string) (type0 : string) : string :=
  let type1 :=
    match Re.re_match true Re.pat_max name with
    | Some _ => "maxtemp"
    | None => type0
    end in
  match Re.re_match true Re.pat_min name with
  | Some _ => "mintemp"
  | None => type1
  end.

(** [re.search(r'[0-9]{4}', in_file)] and what follows it: year and
    [year_match]. *)
Definition guess_year (in_file : string) : Z * bool :=
  match Re.re_search false Re.pat_year in_file with
  | Some g => (int_of_digits g, true)
  | None => (-1, false)
  end.

Definition get_input (fs : FileSystem) (prog_options : Options)
    : result ProgInput :=
  let in_file := opt_infile prog_options in
  match fs_getsize fs in_file with
  | None => Exit 1 ("Input file " +:+ in_file +:+ " does not exist" +:+ nl)
  | Some input_size =>
      let filename := fs_abspath fs in_file in
      td <-- size_type_days input_size ;;
      let type := guess_temp_type (basename in_file) td.1 in
      let ym := guess_year in_file in
      Ok {| in_filename := filename;
            in_size := input_size;
            in_type := type;
            in_days := td.2;
            in_year := ym.1;
            in_year_match := ym.2 |}
  end.

(** ** Validation: [check_input] *)

(** The type [check_input] goes on with. *)
Definition effective_type (prog_options : Options) (prog_input_in : ProgInput)
    : string :=
  match truthy_str (opt_type prog_options) with
  | Some t => t
  | None => in_type prog_input_in
  end.

(** The condition of the "does not match detected data type" exit. *)
Definition type_mismatch (out_type in_type : string) : bool :=
  (bool_decide (out_type = "rain") && negb (bool_decide (in_type = "rain")))
  || (bool_decide (out_type = "min_temp") && bool_decide (in_type = "rain"))
  || (bool_decide (out_type = "max_temp") && bool_decide (in_type = "rain")).

(** The year [check_input] goes on with, and its [year_match]. *)
Definition effective_year (prog_options : Options) (prog_input_in : ProgInput)
    : Z * bool :=
  match truthy_int (opt_year prog_options) with
  | Some y => (y, false)
  | None => (in_year prog_input_in, in_year_match prog_input_in)
  end.

Definition year_out_of_range (y : Z) : bool :=
  (MIN_YEAR >? y) || (MAX_YEAR <? y).

Definition msg_ambiguous : string :=
  "Temperature data detected, but can not detect whether"
  +:+ " it is min or max data" +:+ nl
  +:+ "Try specifying data type with the -t option" +:+ nl.

Definition msg_mismatch (out_type in_type : string) : string :=
  "Specified data type: " +:+ out_type +:+ " does not match detected data"
  +:+ " type: " +:+ in_type +:+ nl.

Definition msg_no_year : string :=
  "Please specify a year for the input data (-y)" +:+ nl.

Definition msg_bad_year (y : Z) : string :=
  "Invalid year specified: " +:+ pretty y +:+ nl.

Definition msg_hint : string :=
  "Try specifying a year with the -y option" +:+ nl.

(** The two leap year diagnostics, before the hint is added. *)
Definition msg_leap366 (filename : string) (y : Z) : string :=
  "Data file " +:+ filename +:+ " contains data for 366 days" +:+ nl
  +:+ "Year " +:+ pretty y +:+ " does not appear to be a leap year" +:+ nl.

Definition msg_leap365 (filename : string) (y : Z) : string :=
  "Data file " +:+ filename +:+ " contains data for 365 days" +:+ nl
  +:+ "Year " +:+ pretty y +:+ " appears to be a leap year" +:+ nl.

(** [if prog_input_out['year_match']: err_msg += 'Try specifying ...'] *)
Definition with_hint (err_msg : string) (year_match : bool) : string :=
  if year_match then err_msg +:+ msg_hint else err_msg.

Definition check_input (prog_options : Options) (prog_input_in : ProgInput)
    : result ProgInput :=
  let out_type := effective_type prog_options prog_input_in in
  _ <-- exit_if (bool_decide (out_type = "temp")) msg_ambiguous ;;
  _ <-- exit_if (type_mismatch out_type (in_type prog_input_in))
          (msg_mismatch out_type (in_type prog_input_in)) ;;
  let ym := effective_year prog_options prog_input_in in
  _ <-- exit_if (ym.1 =? -1) msg_no_year ;;
  _ <-- exit_if (year_out_of_range ym.1) (msg_bad_year ym.1) ;;
  _ <-- exit_if ((in_days prog_input_in =? 366) && negb (ym.1 mod 4 =? 0))
          (with_hint (msg_leap366 (in_filename prog_input_in) ym.1) ym.2) ;;
  _ <-- exit_if ((in_days prog_input_in =? 365) && (ym.1 mod 4 =? 0))
          (with_hint (msg_leap365 (in_filename prog_input_in) ym.1) ym.2) ;;
  Ok {| in_filename := in_filename prog_input_in;
        in_size := in_size prog_input_in;
        in_type := out_type;
        in_days := in_days prog_input_in;
        in_year := ym.1;
        in_year_match := ym.2 |}.

(** The checks of [check_input] that come before the year. *)
Definition type_checks_pass (prog_options : Options) (prog_input_in : ProgInput)
    : Prop :=
  effective_type prog_options prog_input_in <> "temp"
  /\ type_mismatch (effective_type prog_options prog_input_in)
       (in_type prog_input_in) = false.

(** ** Output resolution: [check_output] *)

(** The output file name: the first two [if]s of [check_output], on the
    dict [prog_output] that starts empty. *)
Definition output_filename (prog_options : Options) (prog_input : ProgInput)
    : gmap string string :=
  let prog_output : gmap string string := ∅ in
  let prog_output :=
    match truthy_str (opt_outfile prog_options) with
    | Some o => <["filename" := o]> prog_output
    | None =>
        match Re.re_match false Re.pat_has_ext (in_filename prog_input) with
        | Some _ =>
            <["filename" := Re.re_sub false Re.pat_ext (file_ext NC_CONFIG)
                              (in_filename prog_input)]> prog_output
        | None => prog_output
        end
    end in
  match prog_output !! "filename" with
  | Some _ => prog_output
  | None =>
      <["filename" := in_filename prog_input +:+ file_ext NC_CONFIG]>
        prog_output
  end.

Definition msg_exists (filename : string) : string :=
  "Output file: " +:+ filename +:+ " exists. Use -c option to overwrite" +:+ nl.

Definition check_output (fs : FileSystem) (prog_options : Options)
    (prog_input : ProgInput) : result (gmap string string) :=
  let prog_output := output_filename prog_options prog_input in
  filename <-- dict_get prog_output "filename" ;;
  _ <-- exit_if (bool_decide (is_Some (fs_getsize fs filename))
                 && negb (opt_clobber prog_options))
          (msg_exists filename) ;;
  var <-- match truthy_str (opt_ncvar prog_options) with
          | Some v => Ok v
          | None => spec <-- dict_get DATA_TYPES (in_type prog_input) ;;
                    Ok (nc_var spec)
          end ;;
  let prog_output := <["nc_var" := var]> prog_output in
  units <-- match truthy_str (opt_ncunits prog_options) with
            | Some u => Ok u
            | None => spec <-- dict_get DATA_TYPES (in_type prog_input) ;;
                      Ok (nc_units spec)
            end ;;
  let prog_output := <["nc_units" := units]> prog_output in
  Ok prog_output.

(** ** Decoding: [read_data] *)

Definition byte_val (b : byte) : Z := Z.of_N (Byte.to_N b).

(** Four bytes, least significant first, as a 32-bit word. *)
Definition le_u32 (b0 b1 b2 b3 : byte) : Z :=
  Z.lor (byte_val b0)
    (Z.lor (Z.shiftl (byte_val b1) 8)
       (Z.lor (Z.shiftl (byte_val b2) 16) (Z.shiftl (byte_val b3) 24))).

(** The IEEE 754 binary32 value of a 32-bit word: sign bit 31, exponent
    bits 30..23, fraction bits 22..0.  The value is the number Python and
    numpy hold for it, since binary32 embeds exactly into binary64. *)
Definition f32_of_bits (w : Z) : spec_float :=
  let s := Z.testbit w 31 in
  let e := Z.land (Z.shiftr w 23) 255 in
  let m := Z.land w (Z.ones 23) in
  if e =? 255 then (if m =? 0 then S754_infinity s else S754_nan)
  else if e =? 0 then
    match m with
    | Zpos p => S754_finite s p (-149)
    | _ => S754_zero s
    end
  else
    match m + 2 ^ 23 with
    | Zpos p => S754_finite s p (e - 150)
    | _ => S754_nan
    end.

(** The floats of a byte string, four bytes each. *)
Fixpoint unpack_f32s (bs : list byte) : list spec_float :=
  match bs with
  | b0 :: b1 :: b2 :: b3 :: rest =>
      f32_of_bits (le_u32 b0 b1 b2 b3) :: unpack_f32s rest
  | _ => []
  end.

(** [struct.unpack('<' + 'f' * n, bs)]: [struct.error] unless [bs] has
    exactly [4 * n] bytes. *)
Definition struct_unpack (n : nat) (bs : list byte) : result (list spec_float) :=
  if decide (length bs = (4 * n)%nat) then Ok (unpack_f32s bs)
  else Uncaught "struct.error".

(** The rows of a flat row-major list: [nrows] rows of [ncols] values. *)
Fixpoint rows {A : Type} (ncols nrows : nat) (l : list A) : list (list A) :=
  match nrows with
  | O => []
  | S n => take ncols l :: rows ncols n (drop ncols l)
  end.

Abbreviation grid := (list (list spec_float)).

(** [np.asarray(day_data).reshape((nlat, nlon))] *)
Definition reshape (nlat nlon : nat) (l : list spec_float) : result grid :=
  if decide (length l = (nlat * nlon)%nat) then Ok (rows nlon nlat l)
  else Uncaught "ValueError".

(** [np.zeros([days, nlat, nlon]) * np.nan] *)
Definition nan_array (days nlat nlon : nat) : list grid :=
  replicate days (replicate nlat (replicate nlon S754_nan)).

(** An open file: the bytes not read yet.  [f.read(n)] gives the next [n]
    bytes, or fewer at the end of the file. *)
Definition file_read (n : nat) (f : list byte) : list byte * list byte :=
  (take n f, drop n f).

(** The loop [for i in range(data_days)], on the state made of the open
    file and the array. *)
Fixpoint read_days (lat_count lon_count : nat) (idx : list nat)
    (st : list byte * list grid) : result (list byte * list grid) :=
  match idx with
  | [] => Ok st
  | i :: idx' =>
      let rd := file_read (lat_count * lon_count * 4) st.1 in
      day_data <-- struct_unpack (lat_count * lon_count) rd.1 ;;
      day_data <-- reshape lat_count lon_count day_data ;;
      read_days lat_count lon_count idx' (rd.2, <[i := day_data]> st.2)
  end.

(** The dict [prog_data]. *)
Record ProgData : Type := {
  pd_lats : list Q;
  pd_lons : list Q;
  pd_nlats : nat;
  pd_nlons : nat;
  pd_type : string;
  pd_year : Z;
  pd_days : Z;
  pd_fill : Q;
  pd_data : list grid
}.

Definition read_data (fs : FileSystem) (prog_input : ProgInput)
    : result ProgData :=
  let data_type := in_type prog_input in
  let data_days := in_days prog_input in
  spec <-- dict_get DATA_TYPES data_type ;;
  let data_lats := lats spec in
  let data_lons := lons spec in
  let lat_count := length data_lats in
  let lon_count := length data_lons in
  _ <-- (if decide (data_days < 0) then Uncaught "ValueError" else Ok tt) ;;
  let data_data := nan_array (Z.to_nat data_days) lat_count lon_count in
  (* data_shape = data_data[0].shape *)
  _ <-- match data_data !! 0%nat with
        | Some _ => Ok tt
        | None => Uncaught "IndexError"
        end ;;
  data_file <-- match fs_open fs (in_filename prog_input) with
                | Some bs => Ok bs
                | None => Uncaught "IOError"
                end ;;
  st <-- read_days lat_count lon_count (seq 0 (Z.to_nat data_days))
           (data_file, data_data) ;;
  Ok {| pd_lats := data_lats;
        pd_lons := data_lons;
        pd_nlats := lat_count;
        pd_nlons := lon_count;
        pd_type := in_type prog_input;
        pd_year := in_year prog_input;
        pd_days := in_days prog_input;
        pd_fill := fill spec;
        pd_data := st.2 |}.

(** The value of the array at day [d], row [i], column [j]. *)
Definition cell (data : list grid) (d i j : nat) : option spec_float :=
  g ← data !! d; row ← g !! i; row !! j.

(** The size in bytes of the record of one day. *)
Definition record_size (lat_count lon_count : nat) : nat :=
  (lat_count * lon_count * 4)%nat.

(** Where the four bytes of a cell start in the file. *)
Definition cell_offset (lat_count lon_count d i j : nat) : nat :=
  (((d * lat_count + i) * lon_count + j) * 4)%nat.

(** The grid that the record of day [d] of a file decodes to. *)
Definition day_grid (lat_count lon_count : nat) (content : list byte) (d : nat)
    : grid :=
  rows lon_count lat_count
    (unpack_f32s (take (record_size lat_count lon_count)
                    (drop (d * record_size lat_count lon_count) content))).

(** ** Emission: [write_data] *)

(** What the program hands to the netCDF4 library: the arguments of
    [createDimension] and [createVariable], the attributes it sets and the
    values it assigns.  The library stores all four variables with the type
    ['f']; the rounding to binary32 it does there is not part of these
    records. *)
Inductive NcValues : Type :=
| NcInts (l : list Z)
| NcAxis (l : list Q)
| NcGrids (l : list grid).

Record NcVariable : Type := {
  var_name : string;
  var_dims : list string;
  var_zlib : bool;
  var_complevel : option Z;
  var_fill_value : option Q;
  var_units : string;
  var_calendar : option string;
  var_values : NcValues
}.

(** A NetCDF file: its dimensions ([None] is the unlimited size) and its
    variables, in the order of creation. *)
Record NcDataset : Type := {
  nc_path : string;
  nc_format : string;
  nc_dimensions : list (string * option Z);
  nc_variables : list NcVariable
}.

Definition write_data (fs : FileSystem) (prog_data : ProgData)
    (prog_output : gmap string string) : result NcDataset :=
  filename <-- dict_get prog_output "filename" ;;
  (* nc.Dataset(filename, 'w', format='NETCDF4') *)
  _ <-- match fs_create fs filename with
        | Some e => Uncaught e
        | None => Ok tt
        end ;;
  (* time dimension and variable *)
  let nc_time_var := time_var NC_CONFIG in
  let nc_year := pd_year prog_data in
  let nc_days := pd_days prog_data in
  let nc_times := {|
    var_name := nc_time_var;
    var_dims := [nc_time_var];
    var_zlib := false;
    var_complevel := None;
    var_fill_value := None;
    var_units := "days since " +:+ pretty nc_year +:+ "-01-01 00:00:00.0";
    var_calendar := Some (calendar NC_CONFIG);
    var_values := NcInts (Z.of_nat <$> seq 0 (Z.to_nat nc_days)) |} in
  (* latitude *)
  let nc_lat_var := lat_var NC_CONFIG in
  let nc_data_lats := pd_lats prog_data in
  let nc_lats := {|
    var_name := nc_lat_var;
    var_dims := [nc_lat_var];
    var_zlib := false;
    var_complevel := None;
    var_fill_value := None;
    var_units := lat_units NC_CONFIG;
    var_calendar := None;
    var_values := NcAxis nc_data_lats |} in
  (* longitude *)
  let nc_lon_var := lon_var NC_CONFIG in
  let nc_data_lons := pd_lons prog_data in
  let nc_lons := {|
    var_name := nc_lon_var;
    var_dims := [nc_lon_var];
    var_zlib := false;
    var_complevel := None;
    var_fill_value := None;
    var_units := lon_units NC_CONFIG;
    var_calendar := None;
    var_values := NcAxis nc_data_lons |} in
  (* data variable *)
  let nc_data_type := pd_type prog_data in
  spec <-- dict_get DATA_TYPES nc_data_type ;;
  let nc_data_var := nc_var spec in
  let nc_comp_level := comp_level NC_CONFIG in
  let nc_data_fill := fill spec in
  let nc_data_units := nc_units spec in
  let nc_var := {|
    var_name := nc_data_var;
    var_dims := [nc_time_var; nc_lat_var; nc_lon_var];
    var_zlib := true;
    var_complevel := Some nc_comp_level;
    var_fill_value := Some nc_data_fill;
    var_units := nc_data_units;
    var_calendar := None;
    var_values := NcGrids (pd_data prog_data) |} in
  Ok {| nc_path := filename;
        nc_format := "NETCDF4";
        nc_dimensions :=
          [(nc_time_var, None);
           (nc_lat_var, Some (Z.of_nat (length nc_data_lats)));
           (nc_lon_var, Some (Z.of_nat (length nc_data_lons)))];
        nc_variables := [nc_times; nc_lats; nc_lons; nc_var] |}.

(** The variable created last: the data variable. *)
Definition data_variable (ds : NcDataset) : option NcVariable :=
  last (nc_variables ds).

(** ** The pipeline: [main] *)

Definition main (fs : FileSystem) (prog_options : Options) : result NcDataset :=
  prog_input <-- get_input fs prog_options ;;
  prog_input <-- check_input prog_options prog_input ;;
  prog_output <-- check_output fs prog_options prog_input ;;
  prog_data <-- read_data fs prog_input ;;
  write_data fs prog_data prog_output.

(** ** What the specification says, where it is compared with the code *)

(** No dot, and no line feed, among the characters of a list. *)
Abbreviation no_dot :=
  (forallb (fun c => negb (bool_decide (c = "."%char)))).
Abbreviation no_line_feed :=
  (forallb (fun c => negb (bool_decide (c = Re.line_feed)))).

Module Spec.

Definition is_digit (c : ascii) : bool :=
  (48 <=? nat_of_ascii c)%nat && (nat_of_ascii c <=? 57)%nat.

Definition all_digits (s : string) : bool :=
forallb is_digit (list_ascii_of_string s).

(** No line feed in [s]. *)
Definition single_line (s : string) : bool :=
no_line_feed (list_ascii_of_string s).

(** The maximal runs of digits of a string, from left to right; [cur] is
    the run being read, reversed. *)
Fixpoint digit_runs (cur : list ascii) (s : list ascii)
    : list (list ascii) :=
  match s with
  | [] => match cur with [] => [] | _ => [rev cur] end
  | c :: s' =>
      if is_digit c then digit_runs (c :: cur) s'
      else match cur with
           | [] => digit_runs [] s'
           | _ => rev cur :: digit_runs [] s'
           end
  end.

(** "The first run of exactly four consecutive digits found anywhere in
    the path", a run being a maximal block of digits. *)
Definition first_run_of_four (path : string) : option string :=
  string_of_list_ascii <$>
    head (filter (fun r => length r = 4%nat)
            (digit_runs [] (list_ascii_of_string path))).

Definition guess_year (path : string) : Z * bool :=
  match first_run_of_four path with
  | Some g => (int_of_digits g, true)
  | None => (-1, false)
  end.

(** The split of a string at its last dot. *)
Fixpoint split_last_dot (l : list ascii) : option (list ascii * list ascii) :=
  match l with
  | [] => None
  | x :: l' =>
      match split_last_dot l' with
      | Some (a, b) => Some (x :: a, b)
      | None => if bool_decide (x = "."%char) then Some ([], l') else None
      end
  end.

(** "The final extension, a trailing dot followed by non-dot characters":
    the path without it, and the characters after the dot. *)
Definition final_ext (path : string) : option (string * string) :=
  match split_last_dot (list_ascii_of_string path) with
  | Some (a, b) =>
      match b with
      | [] => None
      | _ => Some (string_of_list_ascii a, string_of_list_ascii b)
      end
  | None => None
  end.

(** "Explicit override wins; otherwise replace the input path's final
    extension with the output format's extension; if the input path has
    no such extension, append the output extension." *)
Definition output_path (outfile : option string) (path : string) : string :=
  match outfile with
  | Some f => f
  | None =>
      match final_ext path with
      | Some (stem, _) => stem +:+ file_ext NC_CONFIG
      | None => path +:+ file_ext NC_CONFIG
      end
  end.

(** No line feed comes before the final extension of [path]. *)
Definition stem_single_line (path : string) : Prop :=
forall stem ext : string,
  final_ext path = Some (stem, ext) -> single_line stem = true.

(** [w] occurs in [s], letter case apart. *)
Definition contains_ci (w s : string) : Prop :=
  exists a m b : string,
    s = a +:+ m +:+ b
    /\ Re.lower <$> list_ascii_of_string m = list_ascii_of_string w.

(** "Little-endian 32-bit": the number that four bytes stand for, the
    least significant byte first. *)
Definition word_le (b0 b1 b2 b3 : byte) : Z :=
  byte_val b0 + 2 ^ 8 * byte_val b1 + 2 ^ 16 * byte_val b2
  + 2 ^ 24 * byte_val b3.

(** The number a floating point datum stands for, when it is one. *)
Definition float_value (x : spec_float) : option Q :=
  match x with
  | S754_zero _ => Some 0%Q
  | S754_finite s m e =>
      Some ((if s then -1 else 1) * inject_Z (Z.pos m) * Qpower 2 e)%Q
  | _ => None
  end.

Definition float_sign (x : spec_float) : option bool :=
  match x with
  | S754_zero s | S754_infinity s | S754_finite s _ _ => Some s
  | S754_nan => None
  end.

(** "32-bit float": [x] is what the word [w] stands for in IEEE 754
    binary32.  With the sign [s] in bit 31, the exponent [e] in bits 30 to
    23 and the fraction [f] in bits 22 to 0: an infinity or a NaN for
    [e = 255]; otherwise the number of sign [s] and of absolute value
    [f / 2^23 * 2^-126] for [e = 0] and [(1 + f / 2^23) * 2^(e - 127)] for
    the other exponents. *)
Definition binary32 (w : Z) (x : spec_float) : Prop :=
  let s := w / 2 ^ 31 in
  let e := (w / 2 ^ 23) mod 2 ^ 8 in
  let f := w mod 2 ^ 23 in
  if e =? 255 then
    x = (if f =? 0 then S754_infinity (s =? 1) else S754_nan)
  else
    float_sign x = Some (s =? 1)
    /\ exists q : Q,
         float_value x = Some q
         /\ (q == (if s =? 1 then -1 else 1)
                  * (if e =? 0
                     then inject_Z f / Qpower 2 23 * Qpower 2 (-126)
                     else (1 + inject_Z f / Qpower 2 23)
                          * Qpower 2 (e - 127)))%Q.

End Spec.

(** ** Sample runs *)

Module Sample.

Definition options (infile : string) : Options := {|
  opt_infile := infile;
  opt_outfile := None;
  opt_clobber := false;
  opt_type := None;
  opt_year := None;
  opt_ncvar := None;
  opt_ncunits := None
|}.

Definition with_type (o : Options) (t : string) : Options := {|
  opt_infile := opt_infile o;
  opt_outfile := opt_outfile o;
  opt_clobber := opt_clobber o;
  opt_type := Some t;
  opt_year := opt_year o;
  opt_ncvar := opt_ncvar o;
  opt_ncunits := opt_ncunits o
|}.

Definition with_year (o : Options) (y : Z) : Options := {|
  opt_infile := opt_infile o;
  opt_outfile := opt_outfile o;
  opt_clobber := opt_clobber o;
  opt_type := opt_type o;
  opt_year := Some y;
  opt_ncvar := opt_ncvar o;
  opt_ncunits := opt_ncunits o
|}.

Definition with_outfile (o : Options) (f : string) : Options := {|
  opt_infile := opt_infile o;
  opt_outfile := Some f;
  opt_clobber := opt_clobber o;
  opt_type := opt_type o;
  opt_year := opt_year o;
  opt_ncvar := opt_ncvar o;
  opt_ncunits := opt_ncunits o
|}.

Definition with_nc (o : Options) (var units : string) : Options := {|
  opt_infile := opt_infile o;
  opt_outfile := opt_outfile o;
  opt_clobber := opt_clobber o;
  opt_type := opt_type o;
  opt_year := opt_year o;
  opt_ncvar := Some var;
  opt_ncunits := Some units
|}.

(** What [get_input] finds for the rainfall file of 2001. *)
Definition rain_2001 : ProgInput := {|
  in_filename := "/data/ind2001_rfp25.grd";
  in_size := 25425901;
  in_type := "rain";
  in_days := 365;
  in_year := 2001;
  in_year_match := true
|}.

(** A leap-sized rainfall file whose name carries no year. *)
Definition rain_366 (year : Z) (year_match : bool) : ProgInput := {|
  in_filename := "/data/rain.grd";
  in_size := 25495561;
  in_type := "rain";
  in_days := 366;
  in_year := year;
  in_year_match := year_match
|}.

(** The decoded data of a rainfall file of 2001 without any rain. *)
Definition dry_2001 : ProgData := {|
  pd_lats := arange 6.5 38.75 0.25;
  pd_lons := arange 66.5 100.25 0.25;
  pd_nlats := 129;
  pd_nlons := 135;
  pd_type := "rain";
  pd_year := 2001;
  pd_days := 365;
  pd_fill := -999;
  pd_data := replicate 365 (replicate 129 (replicate 135 (S754_zero false)))
|}.

(** The output descriptor for [ind2001_rfp25.grd] with the options
    [--ncvar precip --ncunits cm]. *)
Definition precip_output : gmap string string :=
  <["nc_units" := "cm"]>
    (<["nc_var" := "precip"]>
       (<["filename" := "/data/ind2001_rfp25.nc"]> ∅)).

(** A name with a line feed in it. *)
Definition max_lf_min : string := "max" +:+ nl +:+ "min_2001.grd".
Definition rain_lf : string := "rain" +:+ nl +:+ "2001.grd".

(** A rainfall file of 2001 with a line feed in its name. *)
Definition rain_lf_2001 : ProgInput := {|
  in_filename := "/data/" +:+ rain_lf;
  in_size := 25425901;
  in_type := "rain";
  in_days := 365;
  in_year := 2001;
  in_year_match := true
|}.

Definition temp_bytes : list byte := replicate (Z.to_nat 1403061) x00.

(** A temperature file of 365 days that starts with the bytes of 1.0 and
    of the fill value 99.9, least significant byte first, and holds zeros
    behind them. *)
Definition marked_bytes : list byte :=
  [x00; x00; x80; x3f; xcd; xcc; xc7; x42]
    ++ replicate (Z.to_nat 1403053) x00.

(** What [get_input] finds for [temp_min_1999.grd]. *)
Definition min_1999 : ProgInput := {|
  in_filename := "/data/temp_min_1999.grd";
  in_size := 1403061;
  in_type := "mintemp";
  in_days := 365;
  in_year := 1999;
  in_year_match := true
|}.

(** A directory with rainfall and temperature files of the legal sizes. *)
Definition fs : FileSystem := {|
  fs_getsize := fun p =>
    if decide (p = "ind2001_rfp25.grd") then Some 25425901
    else if decide (p = "rain_max_2001.grd") then Some 25425901
    else if decide (p = "rf12345_2001.grd") then Some 25425901
    else if decide (p = "rain2004.grd") then Some 25495561
    else if decide (p = "temp_min_2001.grd") then Some 1403061
    else if decide (p = "temp_min_1999.grd") then Some 1403061
    else if decide (p = "MaxT_MinT_2004.GRD") then Some 1406905
    else if decide (p = max_lf_min) then Some 1403061
    else if decide (p = "notes.txt") then Some 120
    else None;
  fs_abspath := fun p => "/data/" +:+ p;
  fs_open := fun p =>
    if decide (p = "/data/temp_min_2001.grd") then Some temp_bytes
    else if decide (p = "/data/temp_min_1999.grd") then Some marked_bytes
    else None;
  fs_create := fun p =>
    if decide (p = "/no/such/dir/out.nc") then Some "PermissionError"
    else None
|}.

End Sample.

(** No slash among the characters of a list. *)
Abbreviation no_slash :=
  (forallb (fun c => negb (bool_decide (c = "/"%char)))).

(** ** More sample runs *)

Module Demo.

(** A directory tree with a year in a directory name. *)
Definition fs : FileSystem := {|
  fs_getsize := fun p =>
    if decide (p = "obs/2016/MaxT.GRD") then Some 1406905
    else if decide (p = "obs/Temp_2001.grd") then Some 1403061
    else if decide (p = "obs/rain_2001.grd") then Some 25425901
    else if decide (p = "/abs/obs/rain_2001.nc") then Some 4096
    else if decide (p = "obs/short_min_2001.grd") then Some 1403061
    else if decide (p = "min/MaxT.GRD") then Some 1406905
    else None;
  fs_abspath := fun p => "/abs/" +:+ p;
  fs_open := fun p =>
    if decide (p = "/abs/obs/Temp_2001.grd") then Some Sample.temp_bytes
    else if decide (p = "/abs/obs/short_min_2001.grd")
         then Some (replicate 3843 x00)
    else None;
  fs_create := fun p => None
|}.

(** A file system that holds one file. *)
Definition single_file (path : string) (content : list byte) : FileSystem := {|
  fs_getsize := fun p =>
    if decide (p = path) then Some (Z.of_nat (length content)) else None;
  fs_abspath := fun p => p;
  fs_open := fun p => if decide (p = path) then Some content else None;
  fs_create := fun p => None
|}.

(** A descriptor for a temperature file of one day. *)
Definition one_day : ProgInput := {|
  in_filename := "day.grd";
  in_size := 3844;
  in_type := "mintemp";
  in_days := 1;
  in_year := 2001;
  in_year_match := true
|}.

(** The output descriptor for [temp_min_2001.grd] without options. *)
Definition min_output : gmap string string :=
  <["nc_units" := "celsius"]>
    (<["nc_var" := "min_temp"]>
       (<["filename" := "/data/temp_min_2001.nc"]> ∅)).

(** The same with [--outfile /no/such/dir/out.nc]. *)
Definition no_dir_output : gmap string string :=
  <["nc_units" := "celsius"]>
    (<["nc_var" := "min_temp"]>
       (<["filename" := "/no/such/dir/out.nc"]> ∅)).

(** What [get_input] finds for [temp_min_2001.grd]. *)
Definition min_2001 : ProgInput := {|
  in_filename := "/data/temp_min_2001.grd";
  in_size := 1403061;
  in_type := "mintemp";
  in_days := 365;
  in_year := 2001;
  in_year_match := true
|}.

End Demo.

(** * Properties *)

(** ** Stepping through a stage *)

Lemma bind_exit_if {B : Type} (c : bool) (msg : string) (k : unit -> result B) :
  bind (exit_if c msg) k = if c then Exit 1 msg else k tt.
Proof. by destruct c. Qed.

Lemma is_exit_Exit {A : Type} (msg : string) : is_exit (@Exit A 1 msg).
Proof. by exists msg. Qed.

#[local] Hint Resolve is_exit_Exit : core.

Lemma dict_get_Some {V : Type} (d : gmap string V) (k : string) (v : V) :
  d !! k = Some v -> dict_get d k = Ok v.
Proof. unfold dict_get. by intros ->. Qed.

Lemma truthy_str_Some (f : string) : f <> "" -> truthy_str (Some f) = Some f.
Proof. intros Hf. unfold truthy_str. by rewrite decide_False. Qed.

Lemma truthy_str_inv (o : option string) (f : string) :
  truthy_str o = Some f -> o = Some f /\ f <> "".
Proof.
  destruct o as [g|]; simpl; [|done].
  case_decide; naive_solver.
Qed.

(** ** The tables *)

Lemma DATA_TYPES_keys (t : string) (spec : DatasetSpec) :
  DATA_TYPES !! t = Some spec ->
  (t = "rain" /\ length (lats spec) = 129%nat /\ length (lons spec) = 135%nat
   /\ nc_var spec = "rainfall" /\ nc_units spec = "mm")
  \/ (t = "mintemp" /\ length (lats spec) = 31%nat /\ length (lons spec) = 31%nat
      /\ nc_var spec = "min_temp" /\ nc_units spec = "celsius")
  \/ (t = "maxtemp" /\ length (lats spec) = 31%nat /\ length (lons spec) = 31%nat
      /\ nc_var spec = "max_temp" /\ nc_units spec = "celsius").
Proof.
  unfold DATA_TYPES.
  rewrite !lookup_insert, lookup_empty.
  repeat case_decide; intros Hs; simplify_eq; [left | right; left | right; right];
    (split; [done|]); vm_compute; done.
Qed.

Lemma year_out_of_range_spec (y : Z) :
  year_out_of_range y = false <-> 1900 <= y <= 2100.
Proof. unfold year_out_of_range, MIN_YEAR, MAX_YEAR. lia. Qed.

(** ** Input inference *)

(** C4: for an existing input file, the size alone gives the day count and
    the type the name scan starts from: 25425901 gives (rain, 365), 25495561
    gives (rain, 366), 1403061 gives (temp, 365), 1406905 gives (temp, 366);
    every other size ends the run with the "Invalid input file size"
    diagnostic, so the day count of a descriptor is 365 or 366. *)
Theorem get_input_size_table
    (fs : FileSystem) (prog_options : Options) (input_size : Z) :
  fs_getsize fs (opt_infile prog_options) = Some input_size ->
  (input_size = 25425901 -> size_type_days input_size = Ok ("rain", 365))
  /\ (input_size = 25495561 -> size_type_days input_size = Ok ("rain", 366))
  /\ (input_size = 1403061 -> size_type_days input_size = Ok ("temp", 365))
  /\ (input_size = 1406905 -> size_type_days input_size = Ok ("temp", 366))
  /\ (input_size <> 25425901 -> input_size <> 25495561 ->
      input_size <> 1403061 -> input_size <> 1406905 ->
      get_input fs prog_options = Exit 1 ("Invalid input file size" +:+ nl))
  /\ (forall (t : string) (d : Z),
        size_type_days input_size = Ok (t, d) ->
        (d = 365 \/ d = 366)
        /\ get_input fs prog_options =
           Ok {| in_filename := fs_abspath fs (opt_infile prog_options);
                 in_size := input_size;
                 in_type :=
                   guess_temp_type (basename (opt_infile prog_options)) t;
                 in_days := d;
                 in_year := (guess_year (opt_infile prog_options)).1;
                 in_year_match := (guess_year (opt_infile prog_options)).2 |}).
Proof.
  intros Hsize.
  do 4 (split; [intros ->; reflexivity|]).
  split.
  - intros H1 H2 H3 H4. unfold get_input, size_type_days. rewrite Hsize.
    rewrite (proj2 (Z.eqb_neq _ _) H1), (proj2 (Z.eqb_neq _ _) H2),
      (proj2 (Z.eqb_neq _ _) H3), (proj2 (Z.eqb_neq _ _) H4).
    reflexivity.
  - intros t d Htd. split.
    + revert Htd. unfold size_type_days.
      destruct (Z.eqb_spec input_size 25425901); [intros [= <- <-]; lia|].
      destruct (Z.eqb_spec input_size 25495561); [intros [= <- <-]; lia|].
      destruct (Z.eqb_spec input_size 1403061); [intros [= <- <-]; lia|].
      destruct (Z.eqb_spec input_size 1406905); [intros [= <- <-]; lia|].
      discriminate.
    + unfold get_input. rewrite Hsize, Htd. reflexivity.
Qed.

Lemma get_input_size_table_witness :
  size_type_days 25425901 = Ok ("rain", 365)
  /\ get_input Sample.fs (Sample.options "ind2001_rfp25.grd") = Ok Sample.rain_2001.
Proof.
  pose proof (get_input_size_table Sample.fs
                (Sample.options "ind2001_rfp25.grd") 25425901 eq_refl)
    as (H1 & _ & _ & _ & _ & H6).
  split; [exact (H1 eq_refl)|].
  destruct (H6 "rain" 365 (H1 eq_refl)) as [_ ->].
  reflexivity.
Defined.

(** C3: the scan of the name for "max" and "min" is not limited to files of
    a temperature size.  The rainfall-sized file [rain_max_2001.grd] comes
    out of [get_input] with the type [maxtemp]. *)
Theorem get_input_scans_rainfall_names :
  get_input Sample.fs (Sample.options "rain_max_2001.grd") =
  Ok {| in_filename := "/data/rain_max_2001.grd";
        in_size := 25425901;
        in_type := "maxtemp";
        in_days := 365;
        in_year := 2001;
        in_year_match := true |}.
Proof. reflexivity. Qed.

(** ** Validation *)

Lemma type_mismatch_spec (out_type in_type : string) :
  type_mismatch out_type in_type = true <->
  (out_type = "rain" /\ in_type <> "rain")
  \/ ((out_type = "min_temp" \/ out_type = "max_temp") /\ in_type = "rain").
Proof.
  unfold type_mismatch.
  rewrite !orb_true_iff, !andb_true_iff, negb_true_iff,
    !bool_decide_eq_true, bool_decide_eq_false.
  tauto.
Qed.

(** The cross-check never fires for the two temperature keys of
    [DATA_TYPES]. *)
Lemma type_mismatch_temperature (in_type : string) :
  type_mismatch "mintemp" in_type = false
  /\ type_mismatch "maxtemp" in_type = false.
Proof. split; reflexivity. Qed.

(** C2: an override [--type mintemp] on a file whose size and name say
    rainfall passes the cross-check: [check_input] returns a descriptor of
    type [mintemp] for the rainfall file of 2001. *)
Theorem check_input_accepts_mintemp_on_rainfall :
  get_input Sample.fs
    (Sample.with_type (Sample.options "ind2001_rfp25.grd") "mintemp")
  = Ok Sample.rain_2001
  /\ check_input
       (Sample.with_type (Sample.options "ind2001_rfp25.grd") "mintemp")
       Sample.rain_2001
     = Ok {| in_filename := "/data/ind2001_rfp25.grd";
             in_size := 25425901;
             in_type := "mintemp";
             in_days := 365;
             in_year := 2001;
             in_year_match := true |}.
Proof. split; reflexivity. Qed.

Lemma check_input_after_type_checks
    (prog_options : Options) (prog_input_in : ProgInput) :
  type_checks_pass prog_options prog_input_in ->
  check_input prog_options prog_input_in =
  (let ym := effective_year prog_options prog_input_in in
   _ <-- exit_if (ym.1 =? -1) msg_no_year ;;
   _ <-- exit_if (year_out_of_range ym.1) (msg_bad_year ym.1) ;;
   _ <-- exit_if ((in_days prog_input_in =? 366) && negb (ym.1 mod 4 =? 0))
           (with_hint (msg_leap366 (in_filename prog_input_in) ym.1) ym.2) ;;
   _ <-- exit_if ((in_days prog_input_in =? 365) && (ym.1 mod 4 =? 0))
           (with_hint (msg_leap365 (in_filename prog_input_in) ym.1) ym.2) ;;
   Ok {| in_filename := in_filename prog_input_in;
         in_size := in_size prog_input_in;
         in_type := effective_type prog_options prog_input_in;
         in_days := in_days prog_input_in;
         in_year := ym.1;
         in_year_match := ym.2 |}).
Proof.
  intros [Htemp Hmis]. unfold check_input.
  rewrite bind_exit_if, bool_decide_eq_false_2 by done.
  rewrite bind_exit_if, Hmis. reflexivity.
Qed.

(** Whatever stops [check_input] stops it with exit status 1. *)
Lemma check_input_exit_or_ok (prog_options : Options) (prog_input_in : ProgInput) :
  is_exit (check_input prog_options prog_input_in)
  \/ exists out, check_input prog_options prog_input_in = Ok out.
Proof.
  unfold check_input.
  repeat (rewrite bind_exit_if;
          match goal with
          | |- context [if ?c then Exit 1 ?m else _] =>
              destruct c; [left; apply is_exit_Exit|]
          end).
  right. eauto.
Qed.

(** A descriptor comes out of [check_input] only when every check passed. *)
Lemma check_input_Ok_inv
    (prog_options : Options) (prog_input_in out : ProgInput) :
  check_input prog_options prog_input_in = Ok out ->
  type_checks_pass prog_options prog_input_in
  /\ (effective_year prog_options prog_input_in).1 <> -1
  /\ 1900 <= (effective_year prog_options prog_input_in).1 <= 2100
  /\ ((in_days prog_input_in = 366 ->
       (effective_year prog_options prog_input_in).1 mod 4 = 0)
      /\ (in_days prog_input_in = 365 ->
          (effective_year prog_options prog_input_in).1 mod 4 <> 0))
  /\ out = {| in_filename := in_filename prog_input_in;
              in_size := in_size prog_input_in;
              in_type := effective_type prog_options prog_input_in;
              in_days := in_days prog_input_in;
              in_year := (effective_year prog_options prog_input_in).1;
              in_year_match := (effective_year prog_options prog_input_in).2 |}.
Proof.
  unfold check_input, type_checks_pass.
  rewrite bind_exit_if.
  destruct (bool_decide _) eqn:Ht; [discriminate|].
  apply bool_decide_eq_false in Ht.
  rewrite bind_exit_if.
  destruct (type_mismatch _ _) eqn:Hm; [discriminate|].
  rewrite bind_exit_if.
  destruct (Z.eqb_spec (effective_year prog_options prog_input_in).1 (-1));
    [discriminate|].
  rewrite bind_exit_if.
  destruct (year_out_of_range _) eqn:Hr; [discriminate|].
  apply year_out_of_range_spec in Hr.
  rewrite bind_exit_if.
  destruct (_ && _) eqn:H366 in |- *; [discriminate|].
  rewrite bind_exit_if.
  destruct (_ && _) eqn:H365 in |- *; [discriminate|].
  intros [= <-].
  repeat split; try done; lia.
Qed.

(** C5: a 366-day file with a year not divisible by 4, and a 365-day file
    with a year divisible by 4, end [check_input] with exit status 1; when
    the earlier checks pass the diagnostic is the leap year message, and
    the line about the -y option is added to it exactly when the year was
    read from the file name and not given with --year. *)
Theorem check_input_leap_year (prog_options : Options) (prog_input_in : ProgInput) :
  (in_days prog_input_in = 366
   /\ (effective_year prog_options prog_input_in).1 mod 4 <> 0)
  \/ (in_days prog_input_in = 365
      /\ (effective_year prog_options prog_input_in).1 mod 4 = 0) ->
  is_exit (check_input prog_options prog_input_in)
  /\ (type_checks_pass prog_options prog_input_in ->
      (effective_year prog_options prog_input_in).1 <> -1 ->
      1900 <= (effective_year prog_options prog_input_in).1 <= 2100 ->
      check_input prog_options prog_input_in =
      Exit 1
        (with_hint
           (if decide (in_days prog_input_in = 366)
            then msg_leap366 (in_filename prog_input_in)
                   (effective_year prog_options prog_input_in).1
            else msg_leap365 (in_filename prog_input_in)
                   (effective_year prog_options prog_input_in).1)
           (effective_year prog_options prog_input_in).2))
  /\ (forall err_msg : string,
        with_hint err_msg (effective_year prog_options prog_input_in).2 =
        if (effective_year prog_options prog_input_in).2
        then err_msg +:+ msg_hint else err_msg)
  /\ ((effective_year prog_options prog_input_in).2 = true <->
      truthy_int (opt_year prog_options) = None
      /\ in_year_match prog_input_in = true).
Proof.
  intros Hleap. split; [|split; [|split]].
  - destruct (check_input_exit_or_ok prog_options prog_input_in)
      as [|[out Hout]]; [done|].
    apply check_input_Ok_inv in Hout as (_ & _ & _ & [H366 H365] & _).
    destruct Hleap as [[Hd Hy]|[Hd Hy]]; [by specialize (H366 Hd)|].
    by specialize (H365 Hd).
  - intros Htypes Hunknown Hrange.
    rewrite check_input_after_type_checks by done. cbv zeta.
    rewrite bind_exit_if.
    rewrite (proj2 (Z.eqb_neq _ _) Hunknown).
    rewrite bind_exit_if, (proj2 (year_out_of_range_spec _) Hrange).
    rewrite bind_exit_if.
    destruct Hleap as [[Hd Hy]|[Hd Hy]]; rewrite Hd.
    + rewrite decide_True by done.
      rewrite (proj2 (Z.eqb_neq _ _) Hy). reflexivity.
    + rewrite decide_False by done.
      rewrite (proj2 (Z.eqb_eq _ _) Hy). reflexivity.
  - intros err_msg. reflexivity.
  - unfold effective_year.
    destruct (truthy_int (opt_year prog_options)); simpl;
      [split; [discriminate|intros [? _]; discriminate]|tauto].
Qed.

Lemma check_input_leap_year_witness :
  check_input (Sample.options "rain.grd") (Sample.rain_366 2001 true)
  = Exit 1 (msg_leap366 "/data/rain.grd" 2001 +:+ msg_hint)
  /\ check_input (Sample.with_year (Sample.options "rain.grd") 2001)
       (Sample.rain_366 (-1) false)
     = Exit 1 (msg_leap366 "/data/rain.grd" 2001).
Proof.
  split.
  - refine (proj1 (proj2 (check_input_leap_year (Sample.options "rain.grd")
                            (Sample.rain_366 2001 true) _)) _ _ _).
    + left. split; [reflexivity|]. vm_compute. discriminate.
    + split; [vm_compute; discriminate|reflexivity].
    + vm_compute. discriminate.
    + vm_compute. split; discriminate.
  - refine (proj1 (proj2 (check_input_leap_year
                            (Sample.with_year (Sample.options "rain.grd") 2001)
                            (Sample.rain_366 (-1) false) _)) _ _ _).
    + left. split; [reflexivity|]. vm_compute. discriminate.
    + split; [vm_compute; discriminate|reflexivity].
    + vm_compute. discriminate.
    + vm_compute. split; discriminate.
Defined.



(** The years 1900 and 2100 go through the whole of [check_input] for a
    366-day file. *)
Lemma check_input_accepts_1900_and_2100 :
  check_input (Sample.with_year (Sample.options "rain.grd") 1900)
    (Sample.rain_366 (-1) false)
  = Ok (Sample.rain_366 1900 false)
  /\ check_input (Sample.with_year (Sample.options "rain.grd") 2100)
       (Sample.rain_366 (-1) false)
     = Ok (Sample.rain_366 2100 false).
Proof. split; reflexivity. Qed.

(** ** Emission *)

(** C1: the data variable [write_data] creates takes its name and its
    units from [DATA_TYPES] at the type of the data, whatever the output
    descriptor holds under [nc_var] and [nc_units]: names and units given
    with --ncvar and --ncunits reach the descriptor and stop there.  This
    is so of every run in which the output file can be created; in the
    others the error of [nc.Dataset] ends [write_data]. *)
Theorem write_data_variable_from_DATA_TYPES
    (fs : FileSystem) (prog_data : ProgData)
    (prog_output : gmap string string)
    (spec : DatasetSpec) (filename : string) :
  DATA_TYPES !! pd_type prog_data = Some spec ->
  prog_output !! "filename" = Some filename ->
  match fs_create fs filename with
  | Some e => write_data fs prog_data prog_output = Uncaught e
  | None =>
      exists (ds : NcDataset) (v : NcVariable),
        write_data fs prog_data prog_output = Ok ds
        /\ nc_path ds = filename
        /\ data_variable ds = Some v
        /\ var_name v = nc_var spec
        /\ var_units v = nc_units spec
        /\ var_dims v = ["time"; "latitude"; "longitude"]
        /\ var_fill_value v = Some (fill spec)
        /\ var_values v = NcGrids (pd_data prog_data)
  end.
Proof.
  intros Hspec Hfile. unfold write_data.
  rewrite (dict_get_Some _ _ _ Hfile). cbn [bind].
  destruct (fs_create fs filename) as [e|]; cbn [bind]; [done|].
  rewrite (dict_get_Some _ _ _ Hspec). cbn [bind].
  eexists _, _. split; [reflexivity|]. split; [reflexivity|].
  split; [reflexivity|]. split; [reflexivity|]. split; [reflexivity|].
  split; [reflexivity|]. split; reflexivity.
Qed.

Lemma write_data_variable_from_DATA_TYPES_witness :
  check_output Sample.fs
    (Sample.with_nc (Sample.options "ind2001_rfp25.grd") "precip" "cm")
    Sample.rain_2001 = Ok Sample.precip_output
  /\ Sample.precip_output !! "nc_var" = Some "precip"
  /\ Sample.precip_output !! "nc_units" = Some "cm"
  /\ exists (ds : NcDataset) (v : NcVariable),
       write_data Sample.fs Sample.dry_2001 Sample.precip_output = Ok ds
       /\ data_variable ds = Some v
       /\ var_name v = "rainfall"
       /\ var_units v = "mm".
Proof.
  split; [vm_compute; reflexivity|].
  split; [vm_compute; reflexivity|].
  split; [vm_compute; reflexivity|].
  pose proof (write_data_variable_from_DATA_TYPES Sample.fs Sample.dry_2001
              Sample.precip_output
              {| lats := arange 6.5 38.75 0.25;
                 lons := arange 66.5 100.25 0.25;
                 nc_var := "rainfall";
                 nc_units := "mm";
                 fill := -999 |}
              "/data/ind2001_rfp25.nc"
              ltac:(vm_compute; reflexivity) ltac:(vm_compute; reflexivity))
    as H.
  assert (fs_create Sample.fs "/data/ind2001_rfp25.nc" = None) as Hc
    by reflexivity.
  rewrite Hc in H.
  destruct H as (ds & v & Hw & _ & Hv & Hname & Hunits & _).
  exists ds, v. auto.
Defined.

(** ** The matcher *)

Section greedy_facts.
Context (f : ascii -> bool) (k : list ascii -> option (list ascii)).

(** What a greedy repetition matched is a run of [f], and the
    continuation accepted what is left. *)
Lemma greedy_sound (s r : list ascii) :
  Re.greedy f k s = Some r ->
  exists a t, s = a ++ t /\ forallb f a = true /\ k t = Some r.
Proof.
  induction s as [|x s IH]; simpl.
  - intros Hk. by exists [], [].
  - destruct (f x) eqn:Hx; [|intros Hk; by exists [], (x :: s)].
    destruct (Re.greedy f k s) as [r'|] eqn:Hg.
    + intros [= ->]. destruct (IH eq_refl) as (a & t & -> & Ha & Hk).
      exists (x :: a), t. simpl. by rewrite Hx, Ha.
    + intros Hk. by exists [], (x :: s).
Qed.

(** A split into a run of [f] and a rest the continuation accepts makes
    the repetition succeed. *)
Lemma greedy_complete (a t : list ascii) :
  forallb f a = true -> is_Some (k t) -> is_Some (Re.greedy f k (a ++ t)).
Proof.
  induction a as [|x a IH]; simpl.
  - intros _ Hk. destruct t as [|y t]; simpl; [done|].
    destruct (f y); [|done].
    destruct (Re.greedy f k t); [by eexists|done].
  - intros [Hx Ha]%andb_true_iff Hk. rewrite Hx.
    destruct (IH Ha Hk) as [r ->]. by eexists.
Qed.

(** The longest run is tried first. *)
Lemma greedy_longest (s r : list ascii) :
  forallb f s = true -> k [] = Some r -> Re.greedy f k s = Some r.
Proof.
  induction s as [|x s IH]; simpl; [done|].
  intros [Hx Hs]%andb_true_iff Hk. by rewrite Hx, (IH Hs Hk).
Qed.

Lemma exactly_sound (n : nat) (s r : list ascii) :
  Re.exactly f n k s = Some r ->
  exists d t, s = d ++ t /\ length d = n /\ forallb f d = true
              /\ k t = Some r.
Proof.
  revert s. induction n as [|n IH]; intros s; simpl.
  - intros Hk. by exists [], s.
  - destruct s as [|x s]; [done|].
    destruct (f x) eqn:Hx; [|done].
    intros (d & t & -> & <- & Hd & Hk)%IH.
    exists (x :: d), t. simpl. by rewrite Hx, Hd.
Qed.

Lemma exactly_complete (d t : list ascii) :
  forallb f d = true ->
  Re.exactly f (length d) k (d ++ t) = k t.
Proof.
  induction d as [|x d IH]; simpl; [done|].
  intros [Hx Hd]%andb_true_iff. by rewrite Hx, IH.
Qed.
End greedy_facts.

Lemma list_ascii_of_app (a b : string) :
  list_ascii_of_string (a +:+ b)
  = list_ascii_of_string a ++ list_ascii_of_string b.
Proof. induction a as [|c a IH]; [done|]. simpl. by rewrite <- IH. Qed.

Lemma string_of_list_app (a b : list ascii) :
  string_of_list_ascii (a ++ b)
  = string_of_list_ascii a +:+ string_of_list_ascii b.
Proof. induction a as [|c a IH]; [done|]. simpl. by rewrite IH. Qed.

Lemma string_length_list (s : string) :
  String.length s = length (list_ascii_of_string s).
Proof. induction s; simpl; congruence. Qed.

Lemma list_ascii_inj (s t : string) :
  list_ascii_of_string s = list_ascii_of_string t -> s = t.
Proof.
  intros H. rewrite <- (string_of_list_ascii_of_string s),
    <- (string_of_list_ascii_of_string t). by rewrite H.
Qed.

(** The text matched in front of [rest]. *)
Lemma matched_app (d rest : list ascii) : Re.matched (d ++ rest) rest = d.
Proof.
  unfold Re.matched. rewrite length_app.
  replace (length d + length rest - length rest)%nat with (length d) by lia.
  by rewrite take_app_length.
Qed.

(** ** The year in the file name *)

Lemma match_year_sound (s r : list ascii) :
  Re.match_here false Re.pat_year s = Some r ->
  exists d, s = d ++ r /\ length d = 4%nat /\ forallb Spec.is_digit d = true.
Proof.
  intros (d & t & -> & Hlen & Hd & [= ->])%exactly_sound. by exists d.
Qed.

Lemma match_year_complete (d t : list ascii) :
  length d = 4%nat -> forallb Spec.is_digit d = true ->
  Re.match_here false Re.pat_year (d ++ t) = Some t.
Proof.
  intros Hlen Hd. unfold Re.pat_year. cbn [Re.match_here].
  rewrite <- Hlen. by rewrite exactly_complete.
Qed.

Lemma search_from_eq (ic : bool) (p : Re.pattern) (s : list ascii) :
  Re.search_from ic p s =
  match Re.match_here ic p s with
  | Some rest => Some (Re.matched s rest)
  | None =>
      match s with
      | _ :: s' => Re.search_from ic p s'
      | [] => None
      end
  end.
Proof. by destruct s. Qed.

(** [re.search] stops at the first position where four digits follow one
    another. *)
Lemma search_year_leftmost (a d b : list ascii) :
  length d = 4%nat -> forallb Spec.is_digit d = true ->
  (forall a' d' b', a ++ d ++ b = a' ++ d' ++ b' -> length d' = 4%nat ->
                    forallb Spec.is_digit d' = true ->
                    (length a <= length a')%nat) ->
  Re.search_from false Re.pat_year (a ++ d ++ b) = Some d.
Proof.
  intros Hlen Hd. induction a as [|x a IH]; intros Hleft.
  - cbn [app]. rewrite search_from_eq.
    rewrite match_year_complete by done. by rewrite matched_app.
  - cbn [app]. rewrite search_from_eq.
    destruct (Re.match_here false Re.pat_year (x :: a ++ d ++ b))
      as [r|] eqn:Hm.
    + apply match_year_sound in Hm as (d' & Heq & Hlen' & Hd').
      specialize (Hleft [] d' r Heq Hlen' Hd'). simpl in Hleft. lia.
    + apply IH. intros a' d' b' Heq Hlen' Hd'.
      specialize (Hleft (x :: a') d' b'). simpl in Hleft.
      rewrite Heq in Hleft. specialize (Hleft eq_refl Hlen' Hd'). lia.
Qed.

Lemma search_year_none (l : list ascii) :
  (forall a d b, l = a ++ d ++ b -> length d = 4%nat ->
                 forallb Spec.is_digit d = false) ->
  Re.search_from false Re.pat_year l = None.
Proof.
  induction l as [|x l IH]; intros Hnone; [done|].
  rewrite search_from_eq.
  destruct (Re.match_here false Re.pat_year (x :: l)) as [r|] eqn:Hm.
  - apply match_year_sound in Hm as (d' & Heq & Hlen' & Hd').
    rewrite (Hnone [] d' r Heq Hlen') in Hd'. discriminate.
  - apply IH. intros a d b -> Hlen. by apply (Hnone (x :: a) d b).
Qed.

(** C8, as the code has it: the year is the number written by the four
    digits at the leftmost position of the path where four digits follow
    one another (the first four digits of a longer run of digits count),
    with [year_match] set; a path without four digits in a row gives the
    sentinel -1 with [year_match] cleared, and [get_input] goes on. *)
Theorem guess_year_leftmost_four_digits (in_file : string) :
  (forall a d b : string,
      in_file = a +:+ d +:+ b ->
      String.length d = 4%nat -> Spec.all_digits d = true ->
      (forall a' d' b' : string,
          in_file = a' +:+ d' +:+ b' ->
          String.length d' = 4%nat -> Spec.all_digits d' = true ->
          (String.length a <= String.length a')%nat) ->
      guess_year in_file = (int_of_digits d, true))
  /\ ((forall a d b : string,
          in_file = a +:+ d +:+ b ->
          String.length d = 4%nat -> Spec.all_digits d = false) ->
      guess_year in_file = (-1, false))
  /\ (forall (fs : FileSystem) (prog_options : Options) (sz : Z)
        (t : string) (days : Z),
        opt_infile prog_options = in_file ->
        fs_getsize fs in_file = Some sz ->
        size_type_days sz = Ok (t, days) ->
        exists prog_input,
          get_input fs prog_options = Ok prog_input
          /\ (in_year prog_input, in_year_match prog_input)
             = guess_year in_file).
Proof.
  split; [|split].
  - intros a d b -> Hlen Hd Hleft.
    unfold guess_year, Re.re_search.
    rewrite !list_ascii_of_app.
    rewrite search_year_leftmost.
    + simpl. by rewrite string_of_list_ascii_of_string.
    + by rewrite <- string_length_list.
    + done.
    + intros a' d' b' Heq Hlen' Hd'.
      rewrite <- (list_ascii_of_string_of_list_ascii a'),
        <- (list_ascii_of_string_of_list_ascii d'),
        <- (list_ascii_of_string_of_list_ascii b'),
        <- !list_ascii_of_app in Heq.
      apply list_ascii_inj in Heq.
      specialize (Hleft _ _ _ Heq).
      rewrite !string_length_list, !list_ascii_of_string_of_list_ascii
        in Hleft.
      apply Hleft; [done|].
      unfold Spec.all_digits.
      by rewrite list_ascii_of_string_of_list_ascii.
  - intros Hnone. unfold guess_year, Re.re_search.
    rewrite search_year_none; [done|].
    intros a d b Heq Hlen.
    rewrite <- (list_ascii_of_string_of_list_ascii a),
      <- (list_ascii_of_string_of_list_ascii d),
      <- (list_ascii_of_string_of_list_ascii b),
      <- !list_ascii_of_app in Heq.
    apply list_ascii_inj in Heq.
    specialize (Hnone _ _ _ Heq).
    rewrite string_length_list, list_ascii_of_string_of_list_ascii in Hnone.
    specialize (Hnone Hlen). unfold Spec.all_digits in Hnone.
    by rewrite list_ascii_of_string_of_list_ascii in Hnone.
  - intros fs prog_options sz t days <- Hsz Htd.
    unfold get_input. rewrite Hsz, Htd. simpl.
    eexists. split; [reflexivity|]. simpl. by destruct (guess_year _).
Qed.

(** A string without any digit has no four digits in a row. *)
Lemma no_digit_no_window (s a d b : string) :
  forallb (fun c => negb (Spec.is_digit c)) (list_ascii_of_string s) = true ->
  s = a +:+ d +:+ b -> String.length d = 4%nat ->
  Spec.all_digits d = false.
Proof.
  intros Hs -> Hlen. rewrite !list_ascii_of_app, !forallb_app in Hs.
  apply andb_true_iff in Hs as [_ [Hd _]%andb_true_iff].
  unfold Spec.all_digits. rewrite string_length_list in Hlen.
  destruct (list_ascii_of_string d) as [|c l]; [done|].
  simpl in *. apply andb_true_iff in Hd as [Hc _].
  apply negb_true_iff in Hc. by rewrite Hc.
Qed.

Lemma guess_year_leftmost_four_digits_witness :
  guess_year "2001_ind20160101.grd" = (2001, true)
  /\ guess_year "rainfall.grd" = (-1, false).
Proof.
  split.
  - refine (proj1 (guess_year_leftmost_four_digits "2001_ind20160101.grd")
              "" "2001" "_ind20160101.grd" eq_refl eq_refl eq_refl _).
    intros a' d' b' _ _ _. simpl. lia.
  - refine (proj1 (proj2 (guess_year_leftmost_four_digits "rainfall.grd")) _).
    intros a d b. by apply no_digit_no_window.
Defined.

(** The year of a path whose first run of digits is longer than four:
    [re.search] takes the first four digits of that run, not the later run
    of exactly four. *)
Lemma guess_year_not_first_run_of_four :
  Spec.first_run_of_four "rf12345_2001.grd" = Some "2001"
  /\ guess_year "rf12345_2001.grd" = (1234, true)
  /\ ~ (forall in_file : string, guess_year in_file = Spec.guess_year in_file).
Proof.
  split; [reflexivity|]. split; [reflexivity|].
  intros H. specialize (H "rf12345_2001.grd"). vm_compute in H. discriminate.
Qed.

(** ** The type in the file name *)

Lemma match_here_app_lit (w : list ascii) (p : Re.pattern) (m t : list ascii) :
  Re.lower <$> m = Re.lower <$> w ->
  Re.match_here true (((fun c => Re.ICls (Re.CLit c) Re.QOne) <$> w) ++ p)
    (m ++ t)
  = Re.match_here true p t.
Proof.
  revert m. induction w as [|c w IH]; intros [|x m] Hm; try done.
  injection Hm as Hx Hm.
  cbn [fmap list_fmap app Re.match_here Re.exactly Re.cls_match Re.lit_match].
  rewrite bool_decide_eq_true_2 by done. by apply IH.
Qed.

Lemma match_any_total (ic : bool) (t : list ascii) :
  is_Some (Re.match_here ic [Re.ICls Re.CAny Re.QStar] t).
Proof.
  cbn [Re.match_here]. induction t as [|x t IH]; simpl; [done|].
  destruct (negb _); [|done]. by destruct IH as [r ->].
Qed.

(** [re.match(r'.*w.*', s, re.IGNORECASE)] succeeds when [w] occurs in
    [s], letter case apart, with no line feed before it. *)
Lemma match_contains (w : string) (a m b : string) :
  Spec.single_line a = true ->
  Re.lower <$> list_ascii_of_string m = Re.lower <$> list_ascii_of_string w ->
  is_Some (Re.re_match true
             ([Re.ICls Re.CAny Re.QStar] ++ Re.lit w
              ++ [Re.ICls Re.CAny Re.QStar])
             (a +:+ m +:+ b)).
Proof.
  intros Ha Hm. unfold Re.re_match.
  rewrite !list_ascii_of_app.
  cbn [app Re.match_here].
  destruct (greedy_complete (Re.cls_match true Re.CAny)
              (Re.match_here true
                 (Re.lit w ++ [Re.ICls Re.CAny Re.QStar]))
              (list_ascii_of_string a)
              (list_ascii_of_string m ++ list_ascii_of_string b) Ha)
    as [r Hr].
  - unfold Re.lit. rewrite match_here_app_lit by done.
    apply match_any_total.
  - rewrite Hr. by eexists.
Qed.

Lemma contains_ci_single_line (w s : string) :
  Spec.single_line s = true -> Spec.contains_ci w s ->
  exists a m b : string,
    s = a +:+ m +:+ b /\ Spec.single_line a = true
    /\ Re.lower <$> list_ascii_of_string m = list_ascii_of_string w.
Proof.
  intros Hs (a & m & b & -> & Hm). exists a, m, b.
  split; [done|]. split; [|done].
  unfold Spec.single_line in *.
  rewrite list_ascii_of_app, forallb_app in Hs.
  by apply andb_true_iff in Hs as [Ha _].
Qed.

Lemma match_here_lit_sound (w : list ascii) (p : Re.pattern) (s r : list ascii) :
  Re.match_here true (((fun c => Re.ICls (Re.CLit c) Re.QOne) <$> w) ++ p) s
  = Some r ->
  exists m t, s = m ++ t /\ Re.lower <$> m = Re.lower <$> w
              /\ Re.match_here true p t = Some r.
Proof.
  revert s. induction w as [|c w IH]; intros s.
  - intros Hp. by exists [], s.
  - cbn [fmap list_fmap app Re.match_here Re.exactly].
    destruct s as [|x s]; [done|].
    cbn [Re.cls_match Re.lit_match].
    destruct (bool_decide_reflect (Re.lower x = Re.lower c)) as [Hx|];
      [|done].
    intros (m & t & -> & Hm & Hp)%IH.
    exists (x :: m), t. split; [done|]. split; [|done].
    rewrite !fmap_cons. congruence.
Qed.

(** [re.match(r'.*w.*', s, re.IGNORECASE)] succeeds only when [w] occurs
    in [s], letter case apart, with no line feed before it. *)
Lemma match_contains_sound (w s : string) :
  is_Some (Re.re_match true
             ([Re.ICls Re.CAny Re.QStar] ++ Re.lit w
              ++ [Re.ICls Re.CAny Re.QStar]) s) ->
  exists a m b : string,
    s = a +:+ m +:+ b /\ Spec.single_line a = true
    /\ Re.lower <$> list_ascii_of_string m
       = Re.lower <$> list_ascii_of_string w.
Proof.
  unfold Re.re_match. cbn [app Re.match_here].
  destruct (Re.greedy _ _ _) as [r|] eqn:Hg; [intros _|by intros [? ?]].
  apply greedy_sound in Hg as (a & t & Hs & Ha & Ht).
  unfold Re.lit in Ht.
  apply match_here_lit_sound in Ht as (m & b & -> & Hm & _).
  exists (string_of_list_ascii a), (string_of_list_ascii m),
    (string_of_list_ascii b).
  split; [|split].
  - apply list_ascii_inj.
    by rewrite !list_ascii_of_app, !list_ascii_of_string_of_list_ascii.
  - unfold Spec.single_line.
    by rewrite list_ascii_of_string_of_list_ascii.
  - by rewrite list_ascii_of_string_of_list_ascii.
Qed.

(** On a name without line feed, a test on the base name succeeds exactly
    when the word occurs in it, letter case apart. *)
Lemma name_test_iff (w name : string) :
  Spec.single_line name = true ->
  Re.lower <$> list_ascii_of_string w = list_ascii_of_string w ->
  is_Some (Re.re_match true
             ([Re.ICls Re.CAny Re.QStar] ++ Re.lit w
              ++ [Re.ICls Re.CAny Re.QStar]) name)
  <-> Spec.contains_ci w name.
Proof.
  intros Hline Hw. split.
  - intros (a & m & b & -> & _ & Hm)%match_contains_sound.
    exists a, m, b. split; [done|]. by rewrite Hm.
  - intros Hc.
    destruct (contains_ci_single_line _ _ Hline Hc)
      as (a & m & b & -> & Ha & Hm).
    apply match_contains; [done|]. by rewrite Hm, Hw.
Qed.

(** "min" on the first line of the base name makes the type [mintemp],
    with or without a "max" in the name: the test for "min" comes last. *)
Lemma get_input_min_overrides_max
    (fs : FileSystem) (prog_options : Options) (sz : Z) (a m b : string) :
  fs_getsize fs (opt_infile prog_options) = Some sz ->
  sz = 1403061 \/ sz = 1406905 ->
  basename (opt_infile prog_options) = a +:+ m +:+ b ->
  Spec.single_line a = true ->
  Re.lower <$> list_ascii_of_string m = list_ascii_of_string "min" ->
  is_Some (Re.re_match true Re.pat_min (basename (opt_infile prog_options)))
  /\ exists prog_input,
       get_input fs prog_options = Ok prog_input
       /\ in_type prog_input = "mintemp".
Proof.
  intros Hsz Htemp Heq Ha Hm.
  assert (is_Some (Re.re_match true Re.pat_min
                     (basename (opt_infile prog_options)))) as Hmin.
  { rewrite Heq. by apply (match_contains "min"). }
  split; [done|].
  unfold get_input. rewrite Hsz.
  assert (exists d, size_type_days sz = Ok ("temp", d)) as [d ->].
  { destruct Htemp as [-> | ->]; by eexists. }
  cbn [bind fst snd]. eexists. split; [reflexivity|]. cbn [in_type].
  unfold guess_temp_type. by destruct Hmin as [g ->].
Qed.

Lemma get_input_MaxT_MinT :
  exists prog_input,
    get_input Sample.fs (Sample.options "MaxT_MinT_2004.GRD") = Ok prog_input
    /\ in_type prog_input = "mintemp".
Proof.
  refine (proj2 (get_input_min_overrides_max Sample.fs
                   (Sample.options "MaxT_MinT_2004.GRD") 1406905
                   "MaxT_" "Min" "T_2004.GRD" eq_refl _ eq_refl eq_refl
                   eq_refl)).
  by right.
Qed.

(** C10: a file of a temperature size whose base name has "max" on its
    first line and "min" only behind a line feed.  The name contains both
    words, and the test for "min", which comes last, should decide.  But
    [re.match(r'.*min.*', name)] starts at the head of the name and [.]
    does not match a line feed, so the test does not see the "min": the
    type stays [maxtemp]. *)
Theorem get_input_min_behind_line_feed
    (fs : FileSystem) (prog_options : Options) (sz : Z) :
  fs_getsize fs (opt_infile prog_options) = Some sz ->
  sz = 1403061 \/ sz = 1406905 ->
  is_ascii (basename (opt_infile prog_options)) = true ->
  (exists a m b : string,
     basename (opt_infile prog_options) = a +:+ m +:+ b
     /\ Spec.single_line a = true
     /\ Re.lower <$> list_ascii_of_string m = list_ascii_of_string "max") ->
  Spec.contains_ci "min" (basename (opt_infile prog_options)) ->
  (forall a m b : string,
     basename (opt_infile prog_options) = a +:+ m +:+ b ->
     Re.lower <$> list_ascii_of_string m = list_ascii_of_string "min" ->
     Spec.single_line a = false) ->
  Re.re_match true Re.pat_min (basename (opt_infile prog_options)) = None
  /\ exists prog_input,
       get_input fs prog_options = Ok prog_input
       /\ in_type prog_input = "maxtemp".
Proof.
  intros Hsz Htemp _ (a & m & b & Heq & Ha & Hm) _ Hbehind.
  assert (is_Some (Re.re_match true Re.pat_max
                     (basename (opt_infile prog_options)))) as [g Hmax].
  { rewrite Heq. by apply (match_contains "max"). }
  assert (Re.re_match true Re.pat_min (basename (opt_infile prog_options))
          = None) as Hmin.
  { destruct (Re.re_match true Re.pat_min
                (basename (opt_infile prog_options))) as [g'|] eqn:Hg;
      [|done].
    destruct (match_contains_sound "min"
                (basename (opt_infile prog_options)))
      as (a' & m' & b' & Heq' & Ha' & Hm').
    { unfold Re.pat_min in Hg. rewrite Hg. by eexists. }
    rewrite (Hbehind a' m' b' Heq' Hm') in Ha'. discriminate. }
  split; [done|].
  unfold get_input. rewrite Hsz.
  assert (exists d, size_type_days sz = Ok ("temp", d)) as [d ->].
  { destruct Htemp as [-> | ->]; by eexists. }
  cbn [bind fst snd]. eexists. split; [reflexivity|]. cbn [in_type].
  unfold guess_temp_type. by rewrite Hmin, Hmax.
Qed.

Lemma get_input_min_behind_line_feed_witness :
  Spec.contains_ci "max" (basename Sample.max_lf_min)
  /\ Spec.contains_ci "min" (basename Sample.max_lf_min)
  /\ exists prog_input,
       get_input Sample.fs (Sample.options Sample.max_lf_min) = Ok prog_input
       /\ in_type prog_input = "maxtemp".
Proof.
  assert (Spec.contains_ci "max" (basename Sample.max_lf_min)) as Hmax.
  { by exists "", "max", (nl +:+ "min_2001.grd"). }
  assert (Spec.contains_ci "min" (basename Sample.max_lf_min)) as Hmin.
  { by exists ("max" +:+ nl), "min", "_2001.grd". }
  split; [exact Hmax|]. split; [exact Hmin|].
  refine (proj2 (get_input_min_behind_line_feed Sample.fs
                   (Sample.options Sample.max_lf_min) 1403061
                   eq_refl (or_introl eq_refl) eq_refl _ Hmin _)).
  - by exists "", "max", (nl +:+ "min_2001.grd").
  - intros a m b Heq Hm.
    destruct (Spec.single_line a) eqn:Ha; [exfalso|reflexivity].
    destruct (match_contains "min" a m b Ha) as [g Hg]; [by rewrite Hm|].
    change ([Re.ICls Re.CAny Re.QStar] ++ Re.lit "min"
            ++ [Re.ICls Re.CAny Re.QStar]) with Re.pat_min in Hg.
    rewrite <- Heq in Hg. vm_compute in Hg. discriminate.
Defined.

(** ** The name of the output file *)

Lemma split_last_dot_no_dot (l : list ascii) :
  no_dot l = true -> Spec.split_last_dot l = None.
Proof.
  induction l as [|x l IH]; simpl; [done|].
  intros [Hx Hl]%andb_true_iff. rewrite (IH Hl).
  apply negb_true_iff in Hx. by rewrite Hx.
Qed.

Lemma split_last_dot_None (l : list ascii) :
  Spec.split_last_dot l = None -> no_dot l = true.
Proof.
  induction l as [|x l IH]; simpl; [done|].
  destruct (Spec.split_last_dot l) as [[a b]|]; [done|].
  destruct (bool_decide (x = "."%char)); [done|]. intros _. by rewrite IH.
Qed.

Lemma split_last_dot_Some (l a b : list ascii) :
  Spec.split_last_dot l = Some (a, b) ->
  l = a ++ "."%char :: b /\ no_dot b = true.
Proof.
  revert a. induction l as [|x l IH]; intros a; simpl; [done|].
  destruct (Spec.split_last_dot l) as [[a' b']|] eqn:Hl.
  - intros [= <- <-]. destruct (IH a' eq_refl) as [-> Hb]. by split.
  - destruct (bool_decide_reflect (x = "."%char)) as [->|]; [|done].
    intros [= <- <-]. split; [done|]. by apply split_last_dot_None.
Qed.

Lemma split_last_dot_app (a b : list ascii) :
  no_dot b = true -> Spec.split_last_dot (a ++ "."%char :: b) = Some (a, b).
Proof.
  intros Hb. induction a as [|x a IH]; simpl.
  - by rewrite (split_last_dot_no_dot b Hb).
  - by rewrite IH.
Qed.

Lemma at_end_no_dot (r : list ascii) : Re.at_end r = true -> no_dot r = true.
Proof.
  destruct r as [|x [|y r]]; simpl; try done.
  intros ->%bool_decide_eq_true. reflexivity.
Qed.

(** [\.[^\.]+$] at the head of [s]. *)
Lemma match_ext_sound (s r : list ascii) :
  Re.match_here false Re.pat_ext s = Some r ->
  exists b, s = "."%char :: b ++ r /\ b <> [] /\ no_dot b = true
            /\ Re.at_end r = true.
Proof.
  unfold Re.pat_ext. cbn [Re.match_here].
  intros (d1 & t1 & -> & Hl1 & Hd1 & H1)%exactly_sound.
  apply exactly_sound in H1 as (d2 & t2 & -> & Hl2 & Hd2 & H2).
  apply greedy_sound in H2 as (d3 & t3 & -> & Hd3 & H3).
  destruct (Re.at_end t3) eqn:Hend; [|done]. injection H3 as ->.
  destruct d1 as [|x [|??]]; try done.
  destruct d2 as [|y [|??]]; try done.
  simpl in Hd1. rewrite andb_true_r in Hd1.
  apply bool_decide_eq_true in Hd1 as ->.
  exists (y :: d3). split; [done|]. split; [done|]. split; [|done].
  simpl in *. rewrite andb_true_r in Hd2. by rewrite Hd2.
Qed.

Lemma match_ext_complete (b : list ascii) :
  b <> [] -> no_dot b = true ->
  Re.match_here false Re.pat_ext ("."%char :: b) = Some [].
Proof.
  intros Hne Hb. destruct b as [|y b]; [done|].
  simpl in Hb. apply andb_true_iff in Hb as [Hy Hb].
  unfold Re.pat_ext. cbn [Re.match_here Re.exactly].
  cbn [Re.cls_match Re.lit_match]. rewrite bool_decide_eq_true_2 by done.
  rewrite Hy. by apply greedy_longest.
Qed.

(** [.*\.[^\.]+$] at the head of [l]: the path ends in a dot followed by
    characters other than dots, and no line feed comes before that dot. *)
Lemma match_has_ext_sound (l r : list ascii) :
  Re.match_here false Re.pat_has_ext l = Some r ->
  exists a b, Spec.split_last_dot l = Some (a, b) /\ b <> []
              /\ no_line_feed a = true.
Proof.
  unfold Re.pat_has_ext. cbn [Re.match_here].
  intros (a & t & -> & Ha & Ht)%greedy_sound.
  apply match_ext_sound in Ht as (b & -> & Hne & Hb & Hr).
  exists a, (b ++ r). split; [|split; [|done]].
  - apply split_last_dot_app. rewrite forallb_app, Hb.
    by rewrite (at_end_no_dot r Hr).
  - by destruct b.
Qed.

Lemma match_has_ext_complete (l a b : list ascii) :
  Spec.split_last_dot l = Some (a, b) -> b <> [] ->
  no_line_feed a = true ->
  is_Some (Re.match_here false Re.pat_has_ext l).
Proof.
  intros [-> Hb]%split_last_dot_Some Hne Ha.
  unfold Re.pat_has_ext. cbn [Re.match_here].
  apply (greedy_complete _ _ a ("."%char :: b) Ha).
  change (is_Some (Re.match_here false Re.pat_ext ("."%char :: b))).
  by rewrite match_ext_complete.
Qed.

Lemma sub_from_eq (ic : bool) (p : Re.pattern) (repl s : list ascii) :
  Re.sub_from ic p repl 0 s =
  match Re.match_here ic p s with
  | Some rest =>
      repl ++
      match s with
      | x :: s' =>
          match (length s - length rest)%nat with
          | O => x :: Re.sub_from ic p repl 0 s'
          | S n => Re.sub_from ic p repl n s'
          end
      | [] => []
      end
  | None =>
      match s with
      | x :: s' => x :: Re.sub_from ic p repl 0 s'
      | [] => []
      end
  end.
Proof. by destruct s. Qed.

Lemma sub_from_skip_ext (repl b : list ascii) :
  Re.sub_from false Re.pat_ext repl (length b) b = [].
Proof. induction b as [|x b IH]; simpl; [done|]. exact IH. Qed.

(** [re.sub(r'\.[^\.]+$', repl, l)] replaces what starts at the last dot. *)
Lemma sub_ext (repl l a b : list ascii) :
  Spec.split_last_dot l = Some (a, b) -> b <> [] ->
  Re.sub_from false Re.pat_ext repl 0 l = a ++ repl.
Proof.
  intros [-> Hb]%split_last_dot_Some Hne.
  induction a as [|x a IH].
  - cbn [app]. rewrite sub_from_eq, match_ext_complete by done.
    cbn [length]. rewrite Nat.sub_0_r, sub_from_skip_ext.
    by rewrite app_nil_r.
  - cbn [app]. rewrite sub_from_eq.
    destruct (Re.match_here false Re.pat_ext (x :: a ++ "."%char :: b))
      as [r|] eqn:Hm.
    + apply match_ext_sound in Hm as (b' & Heq & _ & Hb' & Hr).
      injection Heq as -> Heq.
      assert (no_dot (a ++ "."%char :: b) = true) as Hdot.
      { rewrite Heq, forallb_app, Hb'. by rewrite (at_end_no_dot r Hr). }
      rewrite forallb_app in Hdot. simpl in Hdot.
      by rewrite andb_false_r in Hdot.
    + by rewrite IH.
Qed.

Lemma check_output_Ok_inv (fs : FileSystem) (prog_options : Options)
    (prog_input : ProgInput) (prog_output : gmap string string) :
  check_output fs prog_options prog_input = Ok prog_output ->
  exists var units : string,
    prog_output =
    <["nc_units" := units]>
      (<["nc_var" := var]> (output_filename prog_options prog_input)).
Proof.
  unfold check_output.
  destruct (dict_get (output_filename prog_options prog_input) "filename")
    as [filename| |]; simpl; [|done..].
  rewrite bind_exit_if. destruct (_ && _); [done|].
  destruct (truthy_str (opt_ncvar prog_options)) as [v|]; simpl.
  - destruct (truthy_str (opt_ncunits prog_options)) as [u|]; simpl.
    + intros [= <-]. by exists v, u.
    + destruct (dict_get DATA_TYPES (in_type prog_input)) as [spec| |];
        simpl; [|done..].
      intros [= <-]. by eexists _, _.
  - destruct (dict_get DATA_TYPES (in_type prog_input)) as [spec| |];
      simpl; [|done..].
    destruct (truthy_str (opt_ncunits prog_options)) as [u|]; simpl.
    + intros [= <-]. by eexists _, _.
    + intros [= <-]. by eexists _, _.
Qed.

(** The three cases of the default name. *)
Lemma output_filename_default (prog_options : Options) (prog_input : ProgInput) :
  truthy_str (opt_outfile prog_options) = None ->
  output_filename prog_options prog_input !! "filename" =
  Some (match Re.re_match false Re.pat_has_ext (in_filename prog_input) with
        | Some _ => Re.re_sub false Re.pat_ext (file_ext NC_CONFIG)
                      (in_filename prog_input)
        | None => in_filename prog_input +:+ file_ext NC_CONFIG
        end).
Proof.
  intros Hnone. unfold output_filename. rewrite Hnone.
  destruct (Re.re_match false Re.pat_has_ext (in_filename prog_input)).
  - rewrite lookup_insert_eq. by rewrite lookup_insert_eq.
  - rewrite lookup_empty. by rewrite lookup_insert_eq.
Qed.

Lemma output_filename_override
    (prog_options : Options) (prog_input : ProgInput) (f : string) :
  truthy_str (opt_outfile prog_options) = Some f ->
  output_filename prog_options prog_input !! "filename" = Some f.
Proof.
  intros Hf. unfold output_filename. rewrite Hf.
  rewrite lookup_insert_eq. by rewrite lookup_insert_eq.
Qed.

(** The output path for every --outfile and every input path: an
    --outfile that is not empty; otherwise the input path with its final
    extension replaced by ".nc" when there is one and no line feed comes
    before it, and the input path with ".nc" added in all other cases.
    The path depends on nothing but --outfile and the input path. *)
Lemma output_filename_resolution
    (prog_options : Options) (prog_input : ProgInput) :
  output_filename prog_options prog_input !! "filename"
  = Some (match truthy_str (opt_outfile prog_options) with
          | Some f => f
          | None =>
              match Spec.final_ext (in_filename prog_input) with
              | Some (stem, _) =>
                  if Spec.single_line stem
                  then stem +:+ file_ext NC_CONFIG
                  else in_filename prog_input +:+ file_ext NC_CONFIG
              | None => in_filename prog_input +:+ file_ext NC_CONFIG
              end
          end)
  /\ (forall (fs : FileSystem) (prog_output : gmap string string),
        check_output fs prog_options prog_input = Ok prog_output ->
        prog_output !! "filename"
        = output_filename prog_options prog_input !! "filename")
  /\ (forall (prog_options' : Options) (prog_input' : ProgInput),
        opt_outfile prog_options' = opt_outfile prog_options ->
        in_filename prog_input' = in_filename prog_input ->
        output_filename prog_options' prog_input'
        = output_filename prog_options prog_input).
Proof.
  split; [|split].
  - destruct (truthy_str (opt_outfile prog_options)) as [f|] eqn:Hout.
    + by apply output_filename_override.
    + rewrite output_filename_default by done.
      unfold Spec.final_ext, Spec.single_line, Re.re_match, Re.re_sub.
      destruct (Spec.split_last_dot
                  (list_ascii_of_string (in_filename prog_input)))
        as [[a b]|] eqn:Hsplit.
      * destruct b as [|y b].
        { destruct (Re.match_here false Re.pat_has_ext _) as [r|] eqn:Hm;
            [|done].
          apply match_has_ext_sound in Hm as (a' & b' & Hs' & Hb' & _).
          congruence. }
        rewrite list_ascii_of_string_of_list_ascii.
        destruct (no_line_feed a) eqn:Hline.
        { destruct (match_has_ext_complete _ _ _ Hsplit
                      ltac:(done) Hline) as [r ->].
          rewrite (sub_ext _ _ _ _ Hsplit) by done.
          by rewrite string_of_list_app, string_of_list_ascii_of_string. }
        destruct (Re.match_here false Re.pat_has_ext _) as [r|] eqn:Hm;
          [|done].
        apply match_has_ext_sound in Hm as (a' & b' & Hs' & _ & Ha').
        congruence.
      * destruct (Re.match_here false Re.pat_has_ext _) as [r|] eqn:Hm;
          [|done].
        apply match_has_ext_sound in Hm as (a' & b' & Hs' & _).
        congruence.
  - intros fs prog_output (v & u & ->)%check_output_Ok_inv.
    by rewrite !lookup_insert_ne.
  - intros prog_options' prog_input' Hout Hfile.
    unfold output_filename. by rewrite Hout, Hfile.
Qed.

Lemma final_ext_Some (path stem ext : string) :
  Spec.final_ext path = Some (stem, ext) ->
  path = stem +:+ "." +:+ ext /\ ext <> ""
  /\ no_dot (list_ascii_of_string ext) = true.
Proof.
  unfold Spec.final_ext.
  destruct (Spec.split_last_dot (list_ascii_of_string path))
    as [[a b]|] eqn:Hsplit; [|done].
  destruct b as [|y b]; [done|]. intros [= <- <-].
  apply split_last_dot_Some in Hsplit as [Hl Hdot].
  split; [|split].
  - apply list_ascii_inj.
    rewrite !list_ascii_of_app, list_ascii_of_string_of_list_ascii.
    cbn [list_ascii_of_string app].
    rewrite list_ascii_of_string_of_list_ascii. exact Hl.
  - done.
  - change (String y (string_of_list_ascii b))
      with (string_of_list_ascii (y :: b)).
    by rewrite list_ascii_of_string_of_list_ascii.
Qed.

(** C7: an input path with a line feed before its final extension.  The
    test for an extension, [re.match(r'.*\.[^\.]+$', path)], starts at the
    head of the path and its [.*] stops at the line feed, so it fails, and
    ".nc" is added behind the extension that should have been replaced. *)
Theorem output_filename_line_feed
    (prog_options : Options) (prog_input : ProgInput) (stem ext : string) :
  truthy_str (opt_outfile prog_options) = None ->
  Spec.final_ext (in_filename prog_input) = Some (stem, ext) ->
  Spec.single_line stem = false ->
  Re.re_match false Re.pat_has_ext (in_filename prog_input) = None
  /\ output_filename prog_options prog_input !! "filename"
     = Some (stem +:+ "." +:+ ext +:+ ".nc")
  /\ Spec.output_path None (in_filename prog_input) = stem +:+ ".nc"
  /\ stem +:+ "." +:+ ext +:+ ".nc" <> stem +:+ ".nc"
  /\ (forall (fs : FileSystem) (prog_output : gmap string string),
        check_output fs prog_options prog_input = Ok prog_output ->
        prog_output !! "filename" = Some (stem +:+ "." +:+ ext +:+ ".nc")).
Proof.
  intros Hout Hext Hline.
  destruct (final_ext_Some _ _ _ Hext) as (Hpath & Hne & _).
  assert (Re.re_match false Re.pat_has_ext (in_filename prog_input) = None)
    as Hmatch.
  { unfold Re.re_match.
    destruct (Re.match_here false Re.pat_has_ext _) as [r|] eqn:Hm; [|done].
    apply match_has_ext_sound in Hm as (a & b & Hs & Hb & Ha).
    unfold Spec.final_ext in Hext. rewrite Hs in Hext.
    destruct b as [|y b]; [done|]. injection Hext as <- _.
    unfold Spec.single_line in Hline.
    rewrite list_ascii_of_string_of_list_ascii in Hline. congruence. }
  assert (output_filename prog_options prog_input !! "filename"
          = Some (stem +:+ "." +:+ ext +:+ ".nc")) as Hcode.
  { rewrite output_filename_default, Hmatch by done.
    rewrite Hpath at 1. cbn [file_ext NC_CONFIG].
    f_equal. apply list_ascii_inj. rewrite !list_ascii_of_app.
    by rewrite <- !app_assoc. }
  split; [done|]. split; [done|]. split; [|split].
  - unfold Spec.output_path. by rewrite Hext.
  - intros Heq. apply (f_equal String.length) in Heq.
    rewrite !string_length_list, !list_ascii_of_app, !length_app in Heq.
    destruct ext; [done|]. simpl in Heq. lia.
  - intros fs prog_output (v & u & ->)%check_output_Ok_inv.
    by rewrite !lookup_insert_ne.
Qed.

Lemma output_filename_line_feed_witness :
  Spec.output_path None (in_filename Sample.rain_lf_2001)
  = "/data/rain" +:+ nl +:+ "2001.nc"
  /\ output_filename (Sample.options Sample.rain_lf) Sample.rain_lf_2001
       !! "filename" = Some ("/data/rain" +:+ nl +:+ "2001.grd.nc").
Proof.
  destruct (output_filename_line_feed (Sample.options Sample.rain_lf)
              Sample.rain_lf_2001 ("/data/rain" +:+ nl +:+ "2001") "grd"
              eq_refl eq_refl eq_refl)
    as (_ & Hcode & Hspec & _).
  split; [exact Hspec|exact Hcode].
Defined.

(** An empty --outfile counts as none. *)
Lemma output_filename_empty_override :
  output_filename (Sample.with_outfile (Sample.options "ind2001_rfp25.grd") "")
    Sample.rain_2001 !! "filename" = Some "/data/ind2001_rfp25.nc".
Proof. vm_compute. reflexivity. Qed.

(** ** Decoding *)

Lemma unpack_f32s_length (n : nat) (bs : list byte) :
  length bs = (4 * n)%nat -> length (unpack_f32s bs) = n.
Proof.
  revert bs. induction n as [|n IH]; intros bs Hlen.
  - by destruct bs.
  - destruct bs as [|b0 [|b1 [|b2 [|b3 bs]]]]; simpl in Hlen; try lia.
    simpl. f_equal. apply IH. lia.
Qed.

Lemma unpack_f32s_lookup (bs : list byte) (k : nat) (b0 b1 b2 b3 : byte) :
  bs !! (4 * k)%nat = Some b0 -> bs !! (4 * k + 1)%nat = Some b1 ->
  bs !! (4 * k + 2)%nat = Some b2 -> bs !! (4 * k + 3)%nat = Some b3 ->
  unpack_f32s bs !! k = Some (f32_of_bits (le_u32 b0 b1 b2 b3)).
Proof.
  revert bs. induction k as [|k IH]; intros bs.
  - destruct bs as [|c0 [|c1 [|c2 [|c3 bs]]]]; simpl; try done.
    by intros [= ->] [= ->] [= ->] [= ->].
  - replace (4 * S k)%nat with (S (S (S (S (4 * k))))) by lia.
    destruct bs as [|c0 [|c1 [|c2 [|c3 bs]]]]; simpl; try done.
    apply IH.
Qed.

Lemma rows_length {A : Type} (ncols nrows : nat) (l : list A) :
  length (rows ncols nrows l) = nrows.
Proof. revert l. induction nrows; intros l; simpl; [done|]. by rewrite IHnrows. Qed.

Lemma rows_lookup {A : Type} (ncols nrows : nat) (l : list A) (i : nat) :
  (i < nrows)%nat ->
  rows ncols nrows l !! i = Some (take ncols (drop (i * ncols) l)).
Proof.
  revert l i. induction nrows as [|n IH]; intros l i Hi; [lia|].
  destruct i as [|i]; simpl; [done|].
  rewrite IH by lia. by rewrite drop_drop.
Qed.

Lemma rows_row_length {A : Type} (ncols nrows : nat) (l : list A) (row : list A) :
  length l = (nrows * ncols)%nat -> row ∈ rows ncols nrows l ->
  length row = ncols.
Proof.
  intros Hlen (i & Hi)%list_elem_of_lookup.
  assert (i < nrows)%nat as Hlt.
  { apply lookup_lt_Some in Hi. by rewrite rows_length in Hi. }
  rewrite rows_lookup in Hi by done. injection Hi as <-.
  rewrite length_take, length_drop. nia.
Qed.


Lemma day_grid_cell (lat_count lon_count : nat) (content : list byte)
    (d i j : nat) :
  ((d + 1) * record_size lat_count lon_count <= length content)%nat ->
  (i < lat_count)%nat -> (j < lon_count)%nat ->
  exists b0 b1 b2 b3 : byte,
    content !! cell_offset lat_count lon_count d i j = Some b0
    /\ content !! (cell_offset lat_count lon_count d i j + 1)%nat = Some b1
    /\ content !! (cell_offset lat_count lon_count d i j + 2)%nat = Some b2
    /\ content !! (cell_offset lat_count lon_count d i j + 3)%nat = Some b3
    /\ (row ← day_grid lat_count lon_count content d !! i; row !! j)
       = Some (f32_of_bits (le_u32 b0 b1 b2 b3)).
Proof.
  unfold record_size, cell_offset, day_grid. intros Hlen Hi Hj.
  set (off := (((d * lat_count + i) * lon_count + j) * 4)%nat).
  assert (off + 3 < length content)%nat as Hoff by (unfold off; nia).
  destruct (lookup_lt_is_Some_2 content off ltac:(lia)) as [b0 H0].
  destruct (lookup_lt_is_Some_2 content (off + 1) ltac:(lia)) as [b1 H1].
  destruct (lookup_lt_is_Some_2 content (off + 2) ltac:(lia)) as [b2 H2].
  destruct (lookup_lt_is_Some_2 content (off + 3) ltac:(lia)) as [b3 H3].
  exists b0, b1, b2, b3. do 4 (split; [done|]).
  assert (i * lon_count + j < lat_count * lon_count)%nat as Hcell.
  { pose proof (Nat.mul_le_mono_r (S i) lat_count lon_count Hi). simpl in *.
    lia. }
  rewrite rows_lookup by done. simpl.
  rewrite lookup_take_lt by done. rewrite lookup_drop.
  unfold record_size.
  apply unpack_f32s_lookup;
    rewrite lookup_take_lt by lia; rewrite lookup_drop;
    [rewrite <- H0|rewrite <- H1|rewrite <- H2|rewrite <- H3];
    f_equal; unfold off; lia.
Qed.

Lemma day_grid_shape (lat_count lon_count : nat) (content : list byte) (d : nat) :
  ((d + 1) * record_size lat_count lon_count <= length content)%nat ->
  length (day_grid lat_count lon_count content d) = lat_count
  /\ Forall (fun row => length row = lon_count)
       (day_grid lat_count lon_count content d).
Proof.
  intros Hlen. unfold day_grid. split; [apply rows_length|].
  apply Forall_forall. intros row Hrow.
  eapply rows_row_length; [|exact Hrow].
  apply unpack_f32s_length. rewrite length_take, length_drop.
  unfold record_size in *. nia.
Qed.

(** The loop over the days [k], [k + 1], ..., [k + n - 1], started with
    the file at the record of day [k]: it ends with the file behind the
    record of day [k + n - 1] and with the grids of these days in their
    slots of the array. *)
Lemma read_days_spec (lat_count lon_count : nat) (content : list byte)
    (n k : nat) (data : list grid) :
  ((k + n) * record_size lat_count lon_count <= length content)%nat ->
  (k + n <= length data)%nat ->
  exists data' : list grid,
    read_days lat_count lon_count (seq k n)
      (drop (k * record_size lat_count lon_count) content, data)
    = Ok (drop ((k + n) * record_size lat_count lon_count) content, data')
    /\ length data' = length data
    /\ (forall d, (k <= d < k + n)%nat ->
          data' !! d = Some (day_grid lat_count lon_count content d))
    /\ (forall d, (d < k)%nat -> data' !! d = data !! d).
Proof.
  revert k data. induction n as [|n IH]; intros k data Hlen Hdata.
  - exists data. rewrite Nat.add_0_r. simpl.
    split; [done|]. split; [done|]. split; [lia|done].
  - cbn [seq read_days file_read fst snd].
    unfold struct_unpack.
    rewrite decide_True; last first.
    { rewrite length_take, length_drop. unfold record_size in *. nia. }
    cbn [bind]. unfold reshape.
    rewrite decide_True; last first.
    { apply unpack_f32s_length. rewrite length_take, length_drop.
      unfold record_size in *. nia. }
    cbn [bind]. rewrite drop_drop.
    replace (k * record_size lat_count lon_count
             + lat_count * lon_count * 4)%nat
      with (S k * record_size lat_count lon_count)%nat
      by (unfold record_size; lia).
    destruct (IH (S k)
                (<[k := day_grid lat_count lon_count content k]> data))
      as (data' & Hrun & Hlen' & Hnew & Hold).
    { lia. }
    { rewrite length_insert. lia. }
    exists data'. split.
    { replace (k + S n)%nat with (S k + n)%nat by lia. exact Hrun. }
    split; [by rewrite Hlen', length_insert|]. split.
    + intros d Hd. destruct (decide (d = k)) as [->|Hne].
      * rewrite Hold by lia. apply list_lookup_insert_eq. lia.
      * apply Hnew. lia.
    + intros d Hd. rewrite Hold by lia.
      apply list_lookup_insert_ne. lia.
Qed.

Lemma size_type_days_inv (sz : Z) (t : string) (d : Z) :
  size_type_days sz = Ok (t, d) ->
  (sz = 25425901 /\ t = "rain" /\ d = 365)
  \/ (sz = 25495561 /\ t = "rain" /\ d = 366)
  \/ (sz = 1403061 /\ t = "temp" /\ d = 365)
  \/ (sz = 1406905 /\ t = "temp" /\ d = 366).
Proof.
  unfold size_type_days.
  destruct (Z.eqb_spec sz 25425901); [intros [= <- <-]; auto|].
  destruct (Z.eqb_spec sz 25495561); [intros [= <- <-]; auto|].
  destruct (Z.eqb_spec sz 1403061); [intros [= <- <-]; auto 6|].
  destruct (Z.eqb_spec sz 1406905); [intros [= <- <-]; auto 6|].
  discriminate.
Qed.

Lemma get_input_Ok_inv (fs : FileSystem) (prog_options : Options)
    (prog_input : ProgInput) :
  get_input fs prog_options = Ok prog_input ->
  exists (sz : Z) (t : string) (d : Z),
    fs_getsize fs (opt_infile prog_options) = Some sz
    /\ size_type_days sz = Ok (t, d)
    /\ in_size prog_input = sz
    /\ in_days prog_input = d
    /\ in_filename prog_input = fs_abspath fs (opt_infile prog_options)
    /\ in_type prog_input
       = guess_temp_type (basename (opt_infile prog_options)) t.
Proof.
  unfold get_input.
  destruct (fs_getsize fs (opt_infile prog_options)) as [sz|]; [|done].
  destruct (size_type_days sz) as [[t d]| |] eqn:Htd; simpl; [|done..].
  intros [= <-]. by exists sz, t, d.
Qed.

Lemma guess_temp_type_cases (name type0 : string) :
  guess_temp_type name type0 = type0
  \/ guess_temp_type name type0 = "maxtemp"
  \/ guess_temp_type name type0 = "mintemp".
Proof.
  unfold guess_temp_type.
  destruct (Re.re_match true Re.pat_min name); [auto|].
  destruct (Re.re_match true Re.pat_max name); auto.
Qed.

Lemma DATA_TYPES_defined (t : string) :
  t = "rain" \/ t = "mintemp" \/ t = "maxtemp" ->
  is_Some (DATA_TYPES !! t).
Proof. intros [->|[->| ->]]; vm_compute; by eexists. Qed.

(** What [get_input] and [check_input] leave to [read_data]: a type of
    [DATA_TYPES], 365 or 366 days, and a file that holds the records of
    all the days. *)
Lemma validated_input (fs : FileSystem) (prog_options : Options)
    (prog_input0 prog_input : ProgInput) :
  options_wf prog_options ->
  get_input fs prog_options = Ok prog_input0 ->
  check_input prog_options prog_input0 = Ok prog_input ->
  exists spec : DatasetSpec,
    DATA_TYPES !! in_type prog_input = Some spec
    /\ (in_days prog_input = 365 \/ in_days prog_input = 366)
    /\ in_days prog_input
       * (Z.of_nat (length (lats spec)) * Z.of_nat (length (lons spec)) * 4)
       <= in_size prog_input.
Proof.
  intros Hwf (sz & t & d & _ & Htd & Hsz & Hd & _ & Ht)%get_input_Ok_inv
    ([Htemp Hmis] & _ & _ & _ & ->)%check_input_Ok_inv.
  cbn [in_type in_days in_size]. rewrite Hsz, Hd.
  apply size_type_days_inv in Htd.
  assert (d = 365 \/ d = 366) as Hdays.
  { destruct Htd as [(_ & _ & ->)|[(_ & _ & ->)|[(_ & _ & ->)|(_ & _ & ->)]]];
      auto. }
  assert (is_Some (DATA_TYPES !! effective_type prog_options prog_input0)
          /\ (effective_type prog_options prog_input0 = "rain" -> t = "rain"))
    as [[spec Hspec] Hrain].
  { unfold effective_type in *.
    destruct (truthy_str (opt_type prog_options)) as [t'|] eqn:Hover.
    - apply truthy_str_inv in Hover as [Hover _].
      unfold options_wf in Hwf. rewrite Hover in Hwf. split; [done|].
      intros ->. apply not_true_iff_false in Hmis.
      rewrite type_mismatch_spec in Hmis.
      destruct (decide (in_type prog_input0 = "rain")) as [Hin|Hin];
        [|exfalso; apply Hmis; by left].
      rewrite Ht in Hin.
      destruct (guess_temp_type_cases
                  (basename (opt_infile prog_options)) t) as [H|[H|H]];
        congruence.
    - destruct (guess_temp_type_cases
                  (basename (opt_infile prog_options)) t) as [H|[H|H]];
        rewrite Ht, H in *.
      + split; [|done]. apply DATA_TYPES_defined.
        destruct Htd as [(_ & -> & _)|[(_ & -> & _)|[(_ & -> & _)|(_ & -> & _)]]];
          auto; done.
      + split; [|done]. apply DATA_TYPES_defined. auto.
      + split; [|done]. apply DATA_TYPES_defined. auto. }
  exists spec. split; [done|]. split; [done|].
  destruct (DATA_TYPES_keys _ _ Hspec)
    as [(Hty & -> & -> & _)|[(_ & -> & -> & _)|(_ & -> & -> & _)]].
  - specialize (Hrain Hty).
    destruct Htd as [(-> & _ & ->)|[(-> & _ & ->)|[(_ & Ht' & _)|(_ & Ht' & _)]]];
      [lia|lia|congruence|congruence].
  - destruct Htd as [(-> & _ & ->)|[(-> & _ & ->)|[(-> & _ & ->)|(-> & _ & ->)]]];
      lia.
  - destruct Htd as [(-> & _ & ->)|[(-> & _ & ->)|[(-> & _ & ->)|(-> & _ & ->)]]];
      lia.
Qed.

(** *** The four bytes of a cell *)

Lemma byte_val_range (b : byte) : 0 <= byte_val b < 256.
Proof.
  unfold byte_val. pose proof (Byte.to_N_bounded b) as H. lia.
Qed.

Lemma testbit_above (a n i : Z) :
  0 <= a < 2 ^ n -> n <= i -> Z.testbit a i = false.
Proof.
  intros Ha Hi. destruct (decide (a = 0)) as [->|Hne]; [apply Z.bits_0|].
  apply Z.bits_above_log2; [lia|].
  apply Z.log2_lt_pow2; [lia|].
  pose proof (Z.pow_le_mono_r 2 n i). lia.
Qed.

Lemma land_shiftl_low (a b n : Z) :
  0 <= n -> 0 <= a < 2 ^ n -> Z.land a (b * 2 ^ n) = 0.
Proof.
  intros Hn Ha. apply Z.bits_inj'. intros i Hi.
  rewrite Z.land_spec, Z.bits_0.
  destruct (decide (i < n)) as [Hlt|Hge].
  - rewrite Z.mul_pow2_bits_low by lia. apply andb_false_r.
  - by rewrite (testbit_above a n i) by lia.
Qed.

Lemma lor_shiftl_add (a b n : Z) :
  0 <= n -> 0 <= a < 2 ^ n -> Z.lor a (Z.shiftl b n) = a + 2 ^ n * b.
Proof.
  intros Hn Ha. rewrite Z.shiftl_mul_pow2 by done.
  rewrite <- Z.lxor_lor by (by apply land_shiftl_low).
  rewrite <- Z.add_nocarry_lxor by (by apply land_shiftl_low). ring.
Qed.

(** The word [le_u32] puts together is the number the four bytes stand
    for with the least significant byte first. *)
Lemma le_u32_word_le (b0 b1 b2 b3 : byte) :
  le_u32 b0 b1 b2 b3 = Spec.word_le b0 b1 b2 b3.
Proof.
  unfold le_u32, Spec.word_le.
  pose proof (byte_val_range b0). pose proof (byte_val_range b1).
  pose proof (byte_val_range b2). pose proof (byte_val_range b3).
  replace (Z.shiftl (byte_val b3) 24)
    with (Z.shiftl (Z.shiftl (byte_val b3) 8) 16)
    by (rewrite Z.shiftl_shiftl by lia; done).
  rewrite <- Z.shiftl_lor.
  replace (Z.shiftl (Z.lor (byte_val b2) (Z.shiftl (byte_val b3) 8)) 16)
    with (Z.shiftl (Z.shiftl (Z.lor (byte_val b2)
                                (Z.shiftl (byte_val b3) 8)) 8) 8)
    by (rewrite Z.shiftl_shiftl by lia; done).
  rewrite <- Z.shiftl_lor.
  rewrite !lor_shiftl_add by lia. lia.
Qed.

Lemma word_le_range (b0 b1 b2 b3 : byte) :
  0 <= Spec.word_le b0 b1 b2 b3 < 2 ^ 32.
Proof.
  unfold Spec.word_le.
  pose proof (byte_val_range b0). pose proof (byte_val_range b1).
  pose proof (byte_val_range b2). pose proof (byte_val_range b3). lia.
Qed.

Lemma Qpower_2_not_0 (z : Z) : ~ (Qpower 2 z == 0)%Q.
Proof. apply Qpower_not_0. done. Qed.

(** What [f32_of_bits] makes of a word is what the word stands for in
    binary32. *)
Lemma f32_of_bits_binary32 (w : Z) :
  0 <= w < 2 ^ 32 -> Spec.binary32 w (f32_of_bits w).
Proof.
  intros Hw. unfold Spec.binary32, f32_of_bits.
  assert (Z.land (Z.shiftr w 23) 255 = (w / 2 ^ 23) mod 2 ^ 8) as ->.
  { rewrite Z.shiftr_div_pow2 by lia. apply (Z.land_ones _ 8). lia. }
  assert (Z.land w (Z.ones 23) = w mod 2 ^ 23) as ->.
  { apply Z.land_ones. lia. }
  assert (Z.testbit w 31 = (w / 2 ^ 31 =? 1)) as ->.
  { rewrite Z.testbit_odd, Z.shiftr_div_pow2 by lia.
    assert (0 <= w / 2 ^ 31 < 2) as Hs.
    { split; [apply Z.div_pos; lia|apply Z.div_lt_upper_bound; lia]. }
    destruct (Z.eqb_spec (w / 2 ^ 31) 1) as [->|Hne]; [done|].
    by replace (w / 2 ^ 31) with 0 by lia. }
  set (s := w / 2 ^ 31 =? 1).
  set (e := (w / 2 ^ 23) mod 2 ^ 8).
  set (f := w mod 2 ^ 23).
  assert (0 <= e < 256) as He by (apply Z.mod_pos_bound; lia).
  assert (0 <= f < 2 ^ 23) as Hf by (apply Z.mod_pos_bound; lia).
  destruct (Z.eqb_spec e 255) as [He255|He255]; [done|].
  destruct (Z.eqb_spec e 0) as [He0|He0].
  - destruct f as [|p|p] eqn:Hfp; [| |lia].
    + split; [done|]. eexists. split; [reflexivity|].
      destruct s; reflexivity.
    + split; [done|]. eexists. split; [reflexivity|].
      cbn [Spec.float_value].
      assert (Qpower 2 (-149) == Qpower 2 (-126) / Qpower 2 23)%Q as ->
        by (vm_compute; reflexivity).
      assert (~ Qpower 2 23 == 0)%Q by apply Qpower_2_not_0.
      destruct s; field; done.
  - destruct (f + 2 ^ 23) as [|p|p] eqn:Hfp; [lia| |lia].
    split; [done|]. eexists. split; [reflexivity|].
    replace (e - 127) with ((e - 150) + 23) by lia.
    rewrite Qpower_plus by done.
    assert (inject_Z (Z.pos p) == inject_Z f + Qpower 2 23)%Q as ->.
    { rewrite <- Hfp, inject_Z_plus. reflexivity. }
    pose proof (Qpower_2_not_0 (e - 150)).
    destruct s; field; done.
Qed.

(** The floating point datum of a cell, from its four bytes. *)
Lemma cell_binary32 (b0 b1 b2 b3 : byte) :
  Spec.binary32 (Spec.word_le b0 b1 b2 b3) (f32_of_bits (le_u32 b0 b1 b2 b3)).
Proof.
  rewrite le_u32_word_le. apply f32_of_bits_binary32, word_le_range.
Qed.

(** C9: for a descriptor that went through [get_input] and [check_input],
    and a file of the size found there, [read_data] returns; its loop reads
    one record of [lat_count * lon_count * 4] bytes for each of the days, from
    the start of the file on, and stops behind the last of them; the array
    has one grid of [lat_count] rows of [lon_count] values for each day; and
    the value at day [d], row [i], column [j] is the binary32 number of the
    four bytes that stand in the file at offset
    [((d * lat_count + i) * lon_count + j) * 4], read with the least
    significant byte first, whatever that number is: its sign, exponent
    and fraction are bit 31, bits 30 to 23 and bits 22 to 0 of the word
    [b0 + 2^8 b1 + 2^16 b2 + 2^24 b3]. *)
Theorem read_data_decodes (fs : FileSystem) (prog_options : Options)
    (prog_input0 prog_input : ProgInput) (content : list byte) :
  options_wf prog_options ->
  get_input fs prog_options = Ok prog_input0 ->
  check_input prog_options prog_input0 = Ok prog_input ->
  fs_open fs (in_filename prog_input) = Some content ->
  Z.of_nat (length content) = in_size prog_input ->
  exists (spec : DatasetSpec) (prog_data : ProgData),
    DATA_TYPES !! in_type prog_input = Some spec
    /\ read_data fs prog_input = Ok prog_data
    /\ read_days (length (lats spec)) (length (lons spec))
         (seq 0 (Z.to_nat (in_days prog_input)))
         (content,
          nan_array (Z.to_nat (in_days prog_input))
            (length (lats spec)) (length (lons spec)))
       = Ok (drop (Z.to_nat (in_days prog_input)
                   * record_size (length (lats spec)) (length (lons spec)))
               content,
             pd_data prog_data)
    /\ length (pd_data prog_data) = Z.to_nat (in_days prog_input)
    /\ (forall (d : nat) (g : grid),
          pd_data prog_data !! d = Some g ->
          length g = length (lats spec)
          /\ Forall (fun row => length row = length (lons spec)) g)
    /\ (forall d i j : nat,
          (d < Z.to_nat (in_days prog_input))%nat ->
          (i < length (lats spec))%nat -> (j < length (lons spec))%nat ->
          exists b0 b1 b2 b3 : byte,
            content
              !! cell_offset (length (lats spec)) (length (lons spec)) d i j
            = Some b0
            /\ content
                 !! (cell_offset (length (lats spec)) (length (lons spec))
                       d i j + 1)%nat = Some b1
            /\ content
                 !! (cell_offset (length (lats spec)) (length (lons spec))
                       d i j + 2)%nat = Some b2
            /\ content
                 !! (cell_offset (length (lats spec)) (length (lons spec))
                       d i j + 3)%nat = Some b3
            /\ exists x : spec_float,
                 cell (pd_data prog_data) d i j = Some x
                 /\ Spec.binary32 (Spec.word_le b0 b1 b2 b3) x).
Proof.
  intros Hwf Hget Hcheck Hopen Hsize.
  destruct (validated_input _ _ _ _ Hwf Hget Hcheck)
    as (spec & Hspec & Hdays & Hfits).
  set (nlat := length (lats spec)) in *.
  set (nlon := length (lons spec)) in *.
  set (n := Z.to_nat (in_days prog_input)).
  assert (Z.of_nat n = in_days prog_input) as Hn by (unfold n; lia).
  assert (0 < n)%nat as Hpos by (unfold n; lia).
  assert (n * record_size nlat nlon <= length content)%nat as Hlen.
  { apply Nat2Z.inj_le. unfold record_size.
    rewrite !Nat2Z.inj_mul, Hn, Hsize. simpl (Z.of_nat 4). lia. }
  destruct (read_days_spec nlat nlon content n 0 (nan_array n nlat nlon))
    as (data' & Hrun & Hlen' & Hnew & _).
  { exact Hlen. }
  { unfold nan_array. rewrite length_replicate. lia. }
  change (drop (0 * record_size nlat nlon) content) with content in Hrun.
  change (0 + n)%nat with n in *.
  unfold nan_array in Hlen'. rewrite length_replicate in Hlen'.
  eexists spec, _. split; [done|].
  assert (forall d, (d < n)%nat ->
                    (d + 1) * record_size nlat nlon <= length content)%nat
    as Hrec.
  { intros d Hd.
    pose proof (Nat.mul_le_mono_r (d + 1) n (record_size nlat nlon)). lia. }
  split; [|split; [|split; [|split]]].
  - unfold read_data. rewrite (dict_get_Some _ _ _ Hspec). cbn [bind].
    rewrite decide_False by lia. cbn [bind].
    fold nlat nlon n.
    unfold nan_array at 1. rewrite lookup_replicate_2 by done. cbn [bind].
    rewrite Hopen. cbn [bind]. rewrite Hrun. cbn [bind snd]. reflexivity.
  - exact Hrun.
  - exact Hlen'.
  - cbn [pd_data]. intros d g Hg.
    assert (d < n)%nat as Hd.
    { apply lookup_lt_Some in Hg. lia. }
    rewrite Hnew in Hg by lia. injection Hg as <-.
    apply day_grid_shape. by apply Hrec.
  - cbn [pd_data]. intros d i j Hd Hi Hj.
    destruct (day_grid_cell nlat nlon content d i j (Hrec d Hd) Hi Hj)
      as (b0 & b1 & b2 & b3 & H0 & H1 & H2 & H3 & Hcell).
    exists b0, b1, b2, b3. do 4 (split; [done|]).
    exists (f32_of_bits (le_u32 b0 b1 b2 b3)). split.
    + unfold cell. rewrite Hnew by lia. exact Hcell.
    + apply cell_binary32.
Qed.

(** The bytes [00 c0 79 c4] are the fill value -999 of the rainfall files,
    and they decode to that number like any other four bytes. *)
Lemma fill_value_decodes :
  f32_of_bits (le_u32 x00 xc0 x79 xc4) = S754_finite true 16367616 (-14)
  /\ (- 16367616 * 2 ^ (-14) == -999)%Q.
Proof. split; reflexivity. Qed.

(** The word of the bytes [00 00 80 3f] has exponent 127 and fraction 0,
    the word of [cd cc c7 42] exponent 133 and fraction 4705485. *)
Lemma binary32_normal (w : Z) (x : spec_float) (e f : Z) :
  Spec.binary32 w x ->
  w / 2 ^ 31 = 0 -> (w / 2 ^ 23) mod 2 ^ 8 = e -> w mod 2 ^ 23 = f ->
  0 < e < 255 ->
  exists q : Q,
    Spec.float_value x = Some q
    /\ (q == (1 + inject_Z f / Qpower 2 23) * Qpower 2 (e - 127))%Q.
Proof.
  unfold Spec.binary32. intros Hx Hs He Hf Hrange.
  cbv zeta in Hx. rewrite Hs, He, Hf in Hx.
  destruct (Z.eqb_spec e 255) as [|_]; [lia|].
  destruct (Z.eqb_spec e 0) as [|_]; [lia|].
  destruct Hx as [_ (q & Hq & Hval)]. exists q. split; [done|].
  rewrite Hval. cbn [Z.eqb]. ring.
Qed.

Lemma read_data_decodes_witness :
  exists (prog_data : ProgData) (x1 x99 : spec_float) (q1 q99 : Q),
    read_data Sample.fs Sample.min_1999 = Ok prog_data
    /\ length (pd_data prog_data) = 365%nat
    /\ cell (pd_data prog_data) 0 0 0 = Some x1
    /\ Spec.float_value x1 = Some q1 /\ (q1 == 1)%Q
    /\ cell (pd_data prog_data) 0 0 1 = Some x99
    /\ Spec.float_value x99 = Some q99 /\ (q99 == 13094093 # 131072)%Q.
Proof.
  destruct (read_data_decodes Sample.fs (Sample.options "temp_min_1999.grd")
              Sample.min_1999 Sample.min_1999 Sample.marked_bytes
              I eq_refl eq_refl eq_refl)
    as (spec & prog_data & Hspec & Hread & _ & Hlen & _ & Hcell).
  { unfold Sample.marked_bytes. rewrite length_app, length_replicate.
    cbn [length in_size Sample.min_1999]. lia. }
  destruct (DATA_TYPES_keys _ _ Hspec)
    as [(Hty & _)|[(_ & Hlat & Hlon & _)|(Hty & _)]]; [done| |done].
  rewrite Hlat, Hlon in Hcell.
  destruct (Hcell 0 0 0)%nat
    as (b0 & b1 & b2 & b3 & H0 & H1 & H2 & H3 & x1 & Hx1 & Hb1);
    [cbn [in_days Sample.min_1999]; lia|lia|lia|].
  destruct (Hcell 0 0 1)%nat
    as (c0 & c1 & c2 & c3 & G0 & G1 & G2 & G3 & x99 & Hx99 & Hb99);
    [cbn [in_days Sample.min_1999]; lia|lia|lia|].
  unfold Sample.marked_bytes in H0, H1, H2, H3, G0, G1, G2, G3.
  change (cell_offset 31 31 0 0 0) with 0%nat in H0, H1, H2, H3.
  change (cell_offset 31 31 0 0 1) with 4%nat in G0, G1, G2, G3.
  rewrite lookup_app_l in H0 by (cbn [length]; lia).
  rewrite lookup_app_l in H1 by (cbn [length]; lia).
  rewrite lookup_app_l in H2 by (cbn [length]; lia).
  rewrite lookup_app_l in H3 by (cbn [length]; lia).
  rewrite lookup_app_l in G0 by (cbn [length]; lia).
  rewrite lookup_app_l in G1 by (cbn [length]; lia).
  rewrite lookup_app_l in G2 by (cbn [length]; lia).
  rewrite lookup_app_l in G3 by (cbn [length]; lia).
  injection H0 as <-. injection H1 as <-. injection H2 as <-.
  injection H3 as <-. injection G0 as <-. injection G1 as <-.
  injection G2 as <-. injection G3 as <-.
  destruct (binary32_normal _ _ 127 0 Hb1) as (q1 & Hq1 & Hv1);
    [reflexivity..|lia|].
  destruct (binary32_normal _ _ 133 4705485 Hb99) as (q99 & Hq99 & Hv99);
    [reflexivity..|lia|].
  exists prog_data, x1, x99, q1, q99.
  split; [exact Hread|]. split; [exact Hlen|].
  split; [exact Hx1|]. split; [exact Hq1|]. split.
  { rewrite Hv1. vm_compute. reflexivity. }
  split; [exact Hx99|]. split; [exact Hq99|].
  rewrite Hv99. vm_compute. reflexivity.
Defined.

(** * Further properties *)

(** ** The type of a file of a legal size *)

Lemma get_input_type_cases
    (fs : FileSystem) (prog_options : Options) (sz : Z) (t : string) (d : Z) :
  fs_getsize fs (opt_infile prog_options) = Some sz ->
  size_type_days sz = Ok (t, d) ->
  Spec.single_line (basename (opt_infile prog_options)) = true ->
  exists prog_input,
    get_input fs prog_options = Ok prog_input
    /\ (Spec.contains_ci "min" (basename (opt_infile prog_options)) ->
        in_type prog_input = "mintemp")
    /\ (~ Spec.contains_ci "min" (basename (opt_infile prog_options)) ->
        Spec.contains_ci "max" (basename (opt_infile prog_options)) ->
        in_type prog_input = "maxtemp")
    /\ (~ Spec.contains_ci "min" (basename (opt_infile prog_options)) ->
        ~ Spec.contains_ci "max" (basename (opt_infile prog_options)) ->
        in_type prog_input = t).
Proof.
  intros Hsz Htd Hline. unfold get_input. rewrite Hsz, Htd. cbn [bind].
  eexists. split; [reflexivity|]. cbn [in_type fst].
  pose proof (name_test_iff "min" _ Hline eq_refl) as Hmin.
  pose proof (name_test_iff "max" _ Hline eq_refl) as Hmax.
  change ([Re.ICls Re.CAny Re.QStar] ++ Re.lit "min"
          ++ [Re.ICls Re.CAny Re.QStar]) with Re.pat_min in Hmin.
  change ([Re.ICls Re.CAny Re.QStar] ++ Re.lit "max"
          ++ [Re.ICls Re.CAny Re.QStar]) with Re.pat_max in Hmax.
  unfold guess_temp_type.
  destruct (Re.re_match true Re.pat_min _) as [g|].
  - split; [done|].
    split; intros Hno; destruct Hno; apply Hmin; by eexists.
  - assert (~ Spec.contains_ci "min" (basename (opt_infile prog_options)))
      as Hnomin.
    { intros [g Hg]%Hmin. discriminate. }
    split; [done|].
    destruct (Re.re_match true Re.pat_max _) as [g|].
    + split; [done|]. intros _ Hno. destruct Hno. apply Hmax. by eexists.
    + split; [|done]. intros _ [g Hg]%Hmax. discriminate.
Qed.

(** The type [get_input] infers for a file of a legal size whose base name
    is in ASCII and holds no line feed: [mintemp] when the base name
    contains "min", otherwise [maxtemp] when it contains "max", otherwise
    the type of the size; letter case does not count, and the size has no
    say in the first two cases. *)
Theorem get_input_type_by_name
    (fs : FileSystem) (prog_options : Options) (sz : Z) (t : string) (d : Z) :
  fs_getsize fs (opt_infile prog_options) = Some sz ->
  size_type_days sz = Ok (t, d) ->
  Spec.single_line (basename (opt_infile prog_options)) = true ->
  is_ascii (basename (opt_infile prog_options)) = true ->
  exists prog_input,
    get_input fs prog_options = Ok prog_input
    /\ (Spec.contains_ci "min" (basename (opt_infile prog_options)) ->
        in_type prog_input = "mintemp")
    /\ (~ Spec.contains_ci "min" (basename (opt_infile prog_options)) ->
        Spec.contains_ci "max" (basename (opt_infile prog_options)) ->
        in_type prog_input = "maxtemp")
    /\ (~ Spec.contains_ci "min" (basename (opt_infile prog_options)) ->
        ~ Spec.contains_ci "max" (basename (opt_infile prog_options)) ->
        in_type prog_input = t).
Proof.
  intros Hsz Htd Hline _.
  exact (get_input_type_cases fs prog_options sz t d Hsz Htd Hline).
Qed.

Lemma get_input_type_by_name_witness :
  exists prog_input,
    get_input Demo.fs (Sample.options "obs/2016/MaxT.GRD") = Ok prog_input
    /\ in_type prog_input = "maxtemp".
Proof.
  destruct (get_input_type_by_name Demo.fs
              (Sample.options "obs/2016/MaxT.GRD") 1406905 "temp" 366
              eq_refl eq_refl eq_refl eq_refl)
    as (prog_input & Hget & _ & Hmax & _).
  exists prog_input. split; [exact Hget|]. apply Hmax.
  - intros [g Hg]%(name_test_iff "min" "MaxT.GRD" eq_refl eq_refl).
    vm_compute in Hg. discriminate.
  - by exists "", "Max", "T.GRD".
Defined.

(** ** Validation *)

(** A file of a temperature size whose base name, in ASCII, says neither
    "max" nor "min", with no --type: [check_input] stops with the request
    to give the type, and so does the whole program. *)
Theorem check_input_ambiguous_temperature
    (fs : FileSystem) (prog_options : Options) (sz : Z) :
  fs_getsize fs (opt_infile prog_options) = Some sz ->
  sz = 1403061 \/ sz = 1406905 ->
  Spec.single_line (basename (opt_infile prog_options)) = true ->
  is_ascii (basename (opt_infile prog_options)) = true ->
  ~ Spec.contains_ci "min" (basename (opt_infile prog_options)) ->
  ~ Spec.contains_ci "max" (basename (opt_infile prog_options)) ->
  truthy_str (opt_type prog_options) = None ->
  exists prog_input,
    get_input fs prog_options = Ok prog_input
    /\ in_type prog_input = "temp"
    /\ check_input prog_options prog_input = Exit 1 msg_ambiguous
    /\ main fs prog_options = Exit 1 msg_ambiguous.
Proof.
  intros Hsz Htemp Hline _ Hnomin Hnomax Hnone.
  assert (exists d, size_type_days sz = Ok ("temp", d)) as [d Htd].
  { destruct Htemp as [-> | ->]; by eexists. }
  destruct (get_input_type_cases fs prog_options sz "temp" d Hsz Htd Hline)
    as (prog_input & Hget & _ & _ & Htype).
  specialize (Htype Hnomin Hnomax).
  assert (check_input prog_options prog_input = Exit 1 msg_ambiguous) as Hc.
  { unfold check_input, effective_type. rewrite Hnone, Htype.
    rewrite bind_exit_if. reflexivity. }
  exists prog_input. split; [done|]. split; [done|]. split; [done|].
  unfold main. rewrite Hget. cbn [bind]. by rewrite Hc.
Qed.

Lemma check_input_ambiguous_temperature_witness :
  main Demo.fs (Sample.options "obs/Temp_2001.grd") = Exit 1 msg_ambiguous.
Proof.
  destruct (check_input_ambiguous_temperature Demo.fs
              (Sample.options "obs/Temp_2001.grd") 1403061
              eq_refl (or_introl eq_refl) eq_refl eq_refl)
    as (prog_input & _ & _ & _ & Hmain).
  - intros [g Hg]%(name_test_iff "min" "Temp_2001.grd" eq_refl eq_refl).
    vm_compute in Hg. discriminate.
  - intros [g Hg]%(name_test_iff "max" "Temp_2001.grd" eq_refl eq_refl).
    vm_compute in Hg. discriminate.
  - reflexivity.
  - exact Hmain.
Defined.

(** [check_input] returns a descriptor exactly when the type is known and
    passes the cross-check, the year is known and lies in 1900..2100, and
    the year is a multiple of 4 for 366 days and not one for 365 days.  The
    descriptor keeps the file name, the size and the day count of
    [get_input]: no option changes the day count. *)
Theorem check_input_accepts_iff
    (prog_options : Options) (prog_input_in out : ProgInput) :
  check_input prog_options prog_input_in = Ok out <->
  type_checks_pass prog_options prog_input_in
  /\ (effective_year prog_options prog_input_in).1 <> -1
  /\ 1900 <= (effective_year prog_options prog_input_in).1 <= 2100
  /\ (in_days prog_input_in = 366 ->
      (effective_year prog_options prog_input_in).1 mod 4 = 0)
  /\ (in_days prog_input_in = 365 ->
      (effective_year prog_options prog_input_in).1 mod 4 <> 0)
  /\ out = {| in_filename := in_filename prog_input_in;
              in_size := in_size prog_input_in;
              in_type := effective_type prog_options prog_input_in;
              in_days := in_days prog_input_in;
              in_year := (effective_year prog_options prog_input_in).1;
              in_year_match := (effective_year prog_options prog_input_in).2 |}.
Proof.
  split.
  - intros (Ht & Hu & Hr & [H366 H365] & Hout)%check_input_Ok_inv. done.
  - intros (Ht & Hu & Hr & H366 & H365 & ->).
    rewrite check_input_after_type_checks by done. cbv zeta.
    rewrite bind_exit_if, (proj2 (Z.eqb_neq _ _) Hu).
    rewrite bind_exit_if, (proj2 (year_out_of_range_spec _) Hr).
    rewrite bind_exit_if.
    destruct (Z.eqb_spec (in_days prog_input_in) 366) as [Hd|Hd].
    + rewrite (proj2 (Z.eqb_eq _ _) (H366 Hd)). cbn [negb andb].
      rewrite bind_exit_if.
      destruct (Z.eqb_spec (in_days prog_input_in) 365); [lia|]. done.
    + cbn [andb]. rewrite bind_exit_if.
      destruct (Z.eqb_spec (in_days prog_input_in) 365) as [Hd'|Hd'].
      * rewrite (proj2 (Z.eqb_neq _ _) (H365 Hd')). done.
      * done.
Qed.

(** --type rain on a file that [get_input] did not take for rainfall is
    refused, with both types in the message. *)
Theorem check_input_rejects_rain_override
    (prog_options : Options) (prog_input_in : ProgInput) :
  opt_type prog_options = Some "rain" ->
  in_type prog_input_in <> "rain" ->
  check_input prog_options prog_input_in
  = Exit 1 (msg_mismatch "rain" (in_type prog_input_in)).
Proof.
  intros Hopt Hin. unfold check_input, effective_type. rewrite Hopt.
  cbn [truthy_str]. rewrite decide_False by done.
  rewrite bind_exit_if. cbn [bool_decide decide_rel].
  rewrite bool_decide_eq_false_2 by done.
  rewrite bind_exit_if.
  replace (type_mismatch "rain" (in_type prog_input_in)) with true; [done|].
  symmetry. apply type_mismatch_spec. by left.
Qed.

Lemma check_input_rejects_rain_override_witness :
  check_input (Sample.with_type (Sample.options "obs/2016/MaxT.GRD") "rain")
    {| in_filename := "/abs/obs/2016/MaxT.GRD";
       in_size := 1406905;
       in_type := "maxtemp";
       in_days := 366;
       in_year := 2016;
       in_year_match := true |}
  = Exit 1 (msg_mismatch "rain" "maxtemp").
Proof.
  apply (check_input_rejects_rain_override
           (Sample.with_type (Sample.options "obs/2016/MaxT.GRD") "rain")).
  - reflexivity.
  - discriminate.
Defined.

(** ** Output resolution *)

(** [output_filename] leaves the dict with the key [filename] and no
    other. *)
Lemma output_filename_singleton (prog_options : Options) (prog_input : ProgInput) :
  exists f : string,
    output_filename prog_options prog_input = <["filename" := f]> ∅.
Proof.
  unfold output_filename.
  destruct (truthy_str (opt_outfile prog_options)) as [o|].
  - rewrite lookup_insert_eq. by eexists.
  - destruct (Re.re_match false Re.pat_has_ext (in_filename prog_input)).
    + rewrite lookup_insert_eq. by eexists.
    + rewrite lookup_empty. by eexists.
Qed.

(** An output file that exists stops [check_output] unless --clobber is
    given; the message names the file. *)
Theorem check_output_refuses_existing_file
    (fs : FileSystem) (prog_options : Options) (prog_input : ProgInput)
    (f : string) :
  output_filename prog_options prog_input !! "filename" = Some f ->
  is_Some (fs_getsize fs f) ->
  opt_clobber prog_options = false ->
  check_output fs prog_options prog_input = Exit 1 (msg_exists f).
Proof.
  intros Hf Hex Hclobber. unfold check_output.
  rewrite (dict_get_Some _ _ _ Hf). cbn [bind].
  rewrite bind_exit_if, Hclobber, bool_decide_eq_true_2 by done.
  reflexivity.
Qed.

Lemma check_output_refuses_existing_file_witness :
  check_output Demo.fs (Sample.options "obs/rain_2001.grd")
    {| in_filename := "/abs/obs/rain_2001.grd";
       in_size := 25425901;
       in_type := "rain";
       in_days := 365;
       in_year := 2001;
       in_year_match := true |}
  = Exit 1 (msg_exists "/abs/obs/rain_2001.nc").
Proof.
  apply check_output_refuses_existing_file.
  - vm_compute. reflexivity.
  - by eexists.
  - reflexivity.
Defined.

Lemma check_output_Ok_shape
    (fs : FileSystem) (prog_options : Options) (prog_input : ProgInput)
    (prog_output : gmap string string) :
  check_output fs prog_options prog_input = Ok prog_output ->
  exists f var units : string,
    prog_output
    = <["nc_units" := units]> (<["nc_var" := var]> (<["filename" := f]> ∅))
    /\ output_filename prog_options prog_input !! "filename" = Some f
    /\ (fs_getsize fs f = None \/ opt_clobber prog_options = true)
    /\ match truthy_str (opt_ncvar prog_options) with
       | Some v => var = v
       | None => exists spec, DATA_TYPES !! in_type prog_input = Some spec
                              /\ var = nc_var spec
       end
    /\ match truthy_str (opt_ncunits prog_options) with
       | Some u => units = u
       | None => exists spec, DATA_TYPES !! in_type prog_input = Some spec
                              /\ units = nc_units spec
       end.
Proof.
  unfold check_output.
  destruct (output_filename_singleton prog_options prog_input) as [f Hf].
  rewrite Hf. unfold dict_get at 1. rewrite lookup_insert_eq. cbn [bind].
  rewrite bind_exit_if.
  destruct (bool_decide (is_Some (fs_getsize fs f))
            && negb (opt_clobber prog_options)) eqn:Hcoll; [done|].
  assert (fs_getsize fs f = None \/ opt_clobber prog_options = true)
    as Hfree.
  { apply andb_false_iff in Hcoll as [Hex|Hcl].
    - left. apply bool_decide_eq_false in Hex.
      destruct (fs_getsize fs f); [|done]. destruct Hex. by eexists.
    - right. by apply negb_false_iff in Hcl. }
  unfold dict_get.
  destruct (truthy_str (opt_ncvar prog_options)) as [v|];
    destruct (truthy_str (opt_ncunits prog_options)) as [u|];
    destruct (DATA_TYPES !! in_type prog_input) as [spec|] eqn:Hspec;
    cbn [bind]; try done;
    intros [= <-]; eexists f, _, _;
    (split; [reflexivity|]); (split; [reflexivity|]);
    (split; [exact Hfree|]); split; eauto.
Qed.

(** The descriptor [check_output] returns has exactly the keys [filename],
    [nc_var] and [nc_units].  Its file does not exist, or --clobber was
    given.  The variable name and the units are those of --ncvar and
    --ncunits when given and not empty, and those of [DATA_TYPES] for the
    type of the input otherwise. *)
Theorem check_output_descriptor
    (fs : FileSystem) (prog_options : Options) (prog_input : ProgInput)
    (prog_output : gmap string string) :
  check_output fs prog_options prog_input = Ok prog_output ->
  exists f var units : string,
    prog_output
    = <["nc_units" := units]> (<["nc_var" := var]> (<["filename" := f]> ∅))
    /\ output_filename prog_options prog_input !! "filename" = Some f
    /\ (fs_getsize fs f = None \/ opt_clobber prog_options = true)
    /\ match truthy_str (opt_ncvar prog_options) with
       | Some v => var = v
       | None => exists spec, DATA_TYPES !! in_type prog_input = Some spec
                              /\ var = nc_var spec
       end
    /\ match truthy_str (opt_ncunits prog_options) with
       | Some u => units = u
       | None => exists spec, DATA_TYPES !! in_type prog_input = Some spec
                              /\ units = nc_units spec
       end.
Proof. apply check_output_Ok_shape. Qed.

Lemma check_output_descriptor_witness :
  exists f var units : string,
    Sample.precip_output
    = <["nc_units" := units]> (<["nc_var" := var]> (<["filename" := f]> ∅))
    /\ var = "precip" /\ units = "cm".
Proof.
  destruct (check_output_descriptor Sample.fs
              (Sample.with_nc (Sample.options "ind2001_rfp25.grd")
                 "precip" "cm")
              Sample.rain_2001 Sample.precip_output
              ltac:(vm_compute; reflexivity))
    as (f & var & units & Heq & _ & _ & Hvar & Hunits).
  exists f, var, units. split; [exact Heq|]. split; [exact Hvar|exact Hunits].
Defined.

(** Without --outfile the output path is a prefix of the input path
    followed by ".nc", for every input path: what is cut off is nothing, or
    a final dot with the characters after it, which hold no dot. *)
Theorem output_filename_default_shape
    (prog_options : Options) (prog_input : ProgInput) :
  truthy_str (opt_outfile prog_options) = None ->
  exists stem rest : string,
    in_filename prog_input = stem +:+ rest
    /\ output_filename prog_options prog_input !! "filename"
       = Some (stem +:+ ".nc")
    /\ (rest = ""
        \/ exists ext : string,
             rest = "." +:+ ext /\ ext <> ""
             /\ no_dot (list_ascii_of_string ext) = true).
Proof.
  intros Hnone. rewrite output_filename_default by done.
  unfold Re.re_match, Re.re_sub.
  destruct (Re.match_here false Re.pat_has_ext
              (list_ascii_of_string (in_filename prog_input)))
    as [r|] eqn:Hm.
  - apply match_has_ext_sound in Hm as (a & b & Hsplit & Hb & _).
    rewrite (sub_ext _ _ _ _ Hsplit Hb).
    apply split_last_dot_Some in Hsplit as [Hl Hdot].
    exists (string_of_list_ascii a),
      ("." +:+ string_of_list_ascii b).
    split; [|split].
    + apply list_ascii_inj.
      rewrite !list_ascii_of_app, !list_ascii_of_string_of_list_ascii.
      exact Hl.
    + by rewrite string_of_list_app.
    + right. exists (string_of_list_ascii b). split; [done|]. split.
      * intros Hempty. apply Hb.
        by rewrite <- (list_ascii_of_string_of_list_ascii b), Hempty.
      * by rewrite list_ascii_of_string_of_list_ascii.
  - exists (in_filename prog_input), "". split; [|split; [done|by left]].
    apply list_ascii_inj. rewrite list_ascii_of_app. simpl.
    by rewrite app_nil_r.
Qed.

Lemma output_filename_default_shape_witness :
  exists stem rest : string,
    in_filename Sample.rain_lf_2001 = stem +:+ rest
    /\ output_filename (Sample.options Sample.rain_lf) Sample.rain_lf_2001
         !! "filename" = Some (stem +:+ ".nc").
Proof.
  destruct (output_filename_default_shape (Sample.options Sample.rain_lf)
              Sample.rain_lf_2001 eq_refl)
    as (stem & rest & Hpath & Hout & _).
  by exists stem, rest.
Defined.

(** ** The descriptor after validation *)

(** Each legal size is one byte more than the records of all the days, for
    the grid of the type the size stands for. *)
Theorem size_type_days_record_sizes
    (sz : Z) (t : string) (d : Z) (key : string) (spec : DatasetSpec) :
  size_type_days sz = Ok (t, d) ->
  (t = "rain" /\ key = "rain")
  \/ (t = "temp" /\ (key = "mintemp" \/ key = "maxtemp")) ->
  DATA_TYPES !! key = Some spec ->
  sz = d * (Z.of_nat (length (lats spec)) * Z.of_nat (length (lons spec)) * 4)
       + 1.
Proof.
  intros Htd%size_type_days_inv Hkey Hspec.
  destruct (DATA_TYPES_keys _ _ Hspec)
    as [(-> & -> & -> & _)|[(-> & -> & -> & _)|(-> & -> & -> & _)]];
    destruct Hkey as [[-> Hk]|[-> [Hk|Hk]]]; try discriminate;
    destruct Htd as [(-> & Ht & ->)|[(-> & Ht & ->)|[(-> & Ht & ->)
                    |(-> & Ht & ->)]]]; try discriminate; reflexivity.
Qed.

Lemma size_type_days_record_sizes_witness :
  25495561 = 366 * (129 * 135 * 4) + 1.
Proof.
  destruct (DATA_TYPES_defined "rain" (or_introl eq_refl)) as [spec Hspec].
  pose proof (size_type_days_record_sizes 25495561 "rain" 366 "rain" spec
                eq_refl (or_introl (conj eq_refl eq_refl)) Hspec) as H.
  destruct (DATA_TYPES_keys _ _ Hspec)
    as [(_ & Hlat & Hlon & _)|[(Hk & _)|(Hk & _)]]; [|done..].
  rewrite Hlat, Hlon in H. exact H.
Defined.

(** What holds of every descriptor that [get_input] and [check_input] let
    through, for a --type among the keys of [DATA_TYPES]: the type is one of
    the three keys, the size one of the four legal sizes, the day count the
    one of the size, the year within 1900..2100 and a multiple of 4 exactly
    for 366 days, and a descriptor of type [rain] has a rainfall size. *)
Theorem validated_descriptor (fs : FileSystem) (prog_options : Options)
    (prog_input0 prog_input : ProgInput) :
  options_wf prog_options ->
  get_input fs prog_options = Ok prog_input0 ->
  check_input prog_options prog_input0 = Ok prog_input ->
  (in_type prog_input = "rain" \/ in_type prog_input = "mintemp"
   \/ in_type prog_input = "maxtemp")
  /\ fs_getsize fs (opt_infile prog_options) = Some (in_size prog_input)
  /\ ((in_size prog_input = 25425901 /\ in_days prog_input = 365)
      \/ (in_size prog_input = 25495561 /\ in_days prog_input = 366)
      \/ (in_size prog_input = 1403061 /\ in_days prog_input = 365)
      \/ (in_size prog_input = 1406905 /\ in_days prog_input = 366))
  /\ 1900 <= in_year prog_input <= 2100
  /\ (in_days prog_input = 366 <-> in_year prog_input mod 4 = 0)
  /\ (in_type prog_input = "rain" ->
      in_size prog_input = 25425901 \/ in_size prog_input = 25495561)
  /\ in_filename prog_input = fs_abspath fs (opt_infile prog_options).
Proof.
  intros Hwf Hget Hcheck.
  destruct (validated_input _ _ _ _ Hwf Hget Hcheck)
    as (spec & Hspec & Hdays & Hfits).
  apply get_input_Ok_inv in Hget
    as (sz & t & d & Hsz & Htd & Hsize & Hd & Hfile & _).
  apply check_input_Ok_inv in Hcheck
    as (_ & _ & Hrange & [H366 H365] & ->).
  cbn [in_type in_size in_days in_year in_filename] in *.
  rewrite Hsize, Hd in *. apply size_type_days_inv in Htd.
  assert ((sz = 25425901 /\ d = 365) \/ (sz = 25495561 /\ d = 366)
          \/ (sz = 1403061 /\ d = 365) \/ (sz = 1406905 /\ d = 366))
    as Hlegal.
  { destruct Htd as [(-> & _ & ->)|[(-> & _ & ->)|[(-> & _ & ->)
                    |(-> & _ & ->)]]]; auto 6. }
  split; [|split; [done|split; [done|split; [done|split; [|split]]]]].
  - destruct (DATA_TYPES_keys _ _ Hspec) as [(-> & _)|[(-> & _)|(-> & _)]];
      auto.
  - split; [exact H366|]. intros Hmod.
    destruct Hdays as [Hd365|Hd366]; [|done]. by destruct (H365 Hd365).
  - intros Hrain.
    destruct (DATA_TYPES_keys _ _ Hspec)
      as [(_ & Hlat & Hlon & _)|[(Hk & _)|(Hk & _)]]; [|congruence..].
    rewrite Hlat, Hlon in Hfits. lia.
  - done.
Qed.

Lemma validated_descriptor_witness :
  in_type Sample.rain_2001 = "rain"
  /\ 1900 <= in_year Sample.rain_2001 <= 2100
  /\ (in_days Sample.rain_2001 = 366 <-> in_year Sample.rain_2001 mod 4 = 0).
Proof.
  destruct (validated_descriptor Sample.fs
              (Sample.options "ind2001_rfp25.grd")
              Sample.rain_2001 Sample.rain_2001 I eq_refl eq_refl)
    as (_ & _ & _ & Hrange & Hleap & _).
  split; [reflexivity|]. split; [exact Hrange|exact Hleap].
Defined.

(** ** The year and the directories of the path *)

Lemma search_year_sound (l d : list ascii) :
  Re.search_from false Re.pat_year l = Some d ->
  length d = 4%nat /\ forallb Spec.is_digit d = true
  /\ exists a b, l = a ++ d ++ b.
Proof.
  induction l as [|x l IH]; rewrite search_from_eq.
  - destruct (Re.match_here false Re.pat_year []) as [r|] eqn:Hm; [|done].
    apply match_year_sound in Hm as (d' & Heq & Hlen & _).
    by destruct d'.
  - destruct (Re.match_here false Re.pat_year (x :: l)) as [r|] eqn:Hm.
    + apply match_year_sound in Hm as (d' & -> & Hlen & Hd).
      rewrite matched_app. intros [= <-]. split; [done|]. split; [done|].
      by exists [], r.
    + intros (Hlen & Hd & a & b & ->)%IH. split; [done|]. split; [done|].
      by exists (x :: a), b.
Qed.

Lemma digit_val_range (c : ascii) :
  Spec.is_digit c = true -> 0 <= digit_val c <= 9.
Proof.
  unfold Spec.is_digit, digit_val.
  intros [H1%Nat.leb_le H2%Nat.leb_le]%andb_true_iff. lia.
Qed.

(** The year of the file name is -1, with [year_match] cleared, or a
    number from 0 to 9999, with [year_match] set. *)
Theorem guess_year_range (in_file : string) :
  guess_year in_file = (-1, false)
  \/ exists y : Z, guess_year in_file = (y, true) /\ 0 <= y <= 9999.
Proof.
  unfold guess_year, Re.re_search.
  destruct (Re.search_from false Re.pat_year (list_ascii_of_string in_file))
    as [d|] eqn:Hs; [|by left].
  right. apply search_year_sound in Hs as (Hlen & Hd & _).
  eexists. split; [reflexivity|].
  unfold int_of_digits. rewrite list_ascii_of_string_of_list_ascii.
  destruct d as [|c1 [|c2 [|c3 [|c4 [|??]]]]]; try done.
  simpl in Hd.
  apply andb_true_iff in Hd as [H1%digit_val_range Hd].
  apply andb_true_iff in Hd as [H2%digit_val_range Hd].
  apply andb_true_iff in Hd as [H3%digit_val_range Hd].
  apply andb_true_iff in Hd as [H4%digit_val_range _].
  cbn [fold_left]. lia.
Qed.

(** A longer path keeps the match of its beginning. *)
Lemma search_year_app (a b d : list ascii) :
  Re.search_from false Re.pat_year a = Some d ->
  Re.search_from false Re.pat_year (a ++ b) = Some d.
Proof.
  induction a as [|x a IH].
  - intros (Hlen & _ & a' & b' & Heq)%search_year_sound.
    destruct a'; destruct d; done.
  - rewrite search_from_eq. cbn [app]. rewrite (search_from_eq _ _ (x :: _)).
    destruct (Re.match_here false Re.pat_year (x :: a)) as [r|] eqn:Hm.
    + apply match_year_sound in Hm as (d' & Heq & Hlen & Hd).
      rewrite Heq, matched_app. intros [= <-].
      change (x :: a ++ b) with ((x :: a) ++ b). rewrite Heq, <- app_assoc.
      rewrite match_year_complete by done. by rewrite matched_app.
    + intros Hs.
      destruct (Re.match_here false Re.pat_year (x :: a ++ b))
        as [r|] eqn:Hm'; [|by apply IH].
      exfalso.
      apply match_year_sound in Hm' as (d' & Heq & Hlen & Hd).
      apply search_year_sound in Hs as (Hlen0 & _ & a0 & b0 & Ha).
      assert (4 <= length a)%nat as Hlong.
      { rewrite Ha, !length_app. lia. }
      assert (x :: a = d' ++ drop 4 (x :: a)) as Hsplit.
      { rewrite <- (take_drop 4 (x :: a)) at 1. f_equal.
        change (x :: a ++ b) with ((x :: a) ++ b) in Heq.
        apply (f_equal (take 4)) in Heq.
        rewrite take_app_le in Heq by (simpl; lia).
        rewrite Heq, <- Hlen. by rewrite take_app_length. }
      rewrite Hsplit, match_year_complete in Hm by done. discriminate.
Qed.

(** A year found in the beginning of a path, such as in the name of a
    directory, is the year of every path that goes on from there: the file
    name behind it is not looked at. *)
Theorem guess_year_prefix (dir rest : string) (y : Z) :
  guess_year dir = (y, true) ->
  guess_year (dir +:+ rest) = (y, true).
Proof.
  unfold guess_year, Re.re_search. rewrite list_ascii_of_app.
  destruct (Re.search_from false Re.pat_year (list_ascii_of_string dir))
    as [d|] eqn:Hs; [|done].
  by rewrite (search_year_app _ _ _ Hs).
Qed.

Lemma guess_year_prefix_witness :
  guess_year "obs/2016/MaxT_1999.GRD" = (2016, true).
Proof.
  apply (guess_year_prefix "obs/2016/" "MaxT_1999.GRD" 2016). reflexivity.
Defined.

(** ** The directories of the path and the type *)

Lemma rfind_absent (c : ascii) (s : string) :
  forallb (fun x => negb (bool_decide (x = c))) (list_ascii_of_string s) = true ->
  rfind c s = -1.
Proof.
  induction s as [|x s IH]; [done|]. cbn [list_ascii_of_string forallb rfind].
  intros [Hx Hs]%andb_true_iff. rewrite (IH Hs). simpl.
  by destruct (bool_decide (x = c)).
Qed.

Lemma rfind_last (c : ascii) (dir name : string) :
  forallb (fun x => negb (bool_decide (x = c))) (list_ascii_of_string name) = true ->
  rfind c (dir +:+ String c name) = Z.of_nat (String.length dir).
Proof.
  intros Hname. induction dir as [|x dir IH].
  - change ("" +:+ String c name) with (String c name).
    cbn [rfind String.length]. rewrite (rfind_absent _ _ Hname).
    simpl. by rewrite bool_decide_eq_true_2.
  - change (String x dir +:+ String c name)
      with (String x (dir +:+ String c name)).
    cbn [rfind String.length]. rewrite IH.
    destruct (Z.eqb_spec (Z.of_nat (String.length dir)) (-1)); lia.
Qed.

(** The base name of a path is what stands behind its last slash. *)
Lemma basename_dir (dir name : string) :
  no_slash (list_ascii_of_string name) = true ->
  basename (dir +:+ "/" +:+ name) = name.
Proof.
  intros Hname. unfold basename, str_from.
  change ("/" +:+ name) with (String "/" name).
  rewrite (rfind_last _ _ _ Hname), list_ascii_of_app.
  replace (Z.to_nat (Z.of_nat (String.length dir) + 1))
    with (length (list_ascii_of_string dir ++ ["/"%char])).
  - change (list_ascii_of_string (String "/" name))
      with (["/"%char] ++ list_ascii_of_string name).
    rewrite app_assoc, drop_app_length.
    apply string_of_list_ascii_of_string.
  - rewrite length_app, string_length_list. simpl. lia.
Qed.

(** Two files of one size and one base name get one type, whatever the
    directories they stand in: only what is behind the last slash is
    scanned for "max" and "min". *)
Theorem get_input_type_ignores_directory
    (fs : FileSystem) (o1 o2 : Options) (dir1 dir2 name : string)
    (p1 p2 : ProgInput) :
  opt_infile o1 = dir1 +:+ "/" +:+ name ->
  opt_infile o2 = dir2 +:+ "/" +:+ name ->
  no_slash (list_ascii_of_string name) = true ->
  get_input fs o1 = Ok p1 ->
  get_input fs o2 = Ok p2 ->
  in_size p1 = in_size p2 ->
  in_type p1 = in_type p2 /\ in_days p1 = in_days p2.
Proof.
  intros H1 H2 Hname
    (sz1 & t1 & d1 & _ & Htd1 & Hsz1 & Hd1 & _ & Ht1)%get_input_Ok_inv
    (sz2 & t2 & d2 & _ & Htd2 & Hsz2 & Hd2 & _ & Ht2)%get_input_Ok_inv Hsz.
  rewrite H1, basename_dir in Ht1 by done.
  rewrite H2, basename_dir in Ht2 by done.
  assert (sz1 = sz2) as <- by congruence.
  rewrite Htd1 in Htd2. injection Htd2 as <- <-.
  split; congruence.
Qed.

Lemma get_input_type_ignores_directory_witness :
  exists p1 p2 : ProgInput,
    get_input Demo.fs (Sample.options "obs/2016/MaxT.GRD") = Ok p1
    /\ get_input Demo.fs (Sample.options "min/MaxT.GRD") = Ok p2
    /\ in_type p1 = "maxtemp" /\ in_type p2 = "maxtemp".
Proof.
  eexists _, _. split; [reflexivity|]. split; [reflexivity|].
  destruct (get_input_type_ignores_directory Demo.fs
              (Sample.options "obs/2016/MaxT.GRD")
              (Sample.options "min/MaxT.GRD")
              "obs/2016" "min" "MaxT.GRD" _ _
              eq_refl eq_refl eq_refl eq_refl eq_refl eq_refl)
    as (Heq & _).
  split; [reflexivity|]. rewrite <- Heq. reflexivity.
Defined.

(** ** Files that are too short, and bytes behind the last record *)

(** The loop stops with [struct.error] at the first day whose record the
    file does not hold in full. *)
Lemma read_days_short (lat_count lon_count : nat) (content : list byte)
    (n k : nat) (data : list grid) :
  (k * record_size lat_count lon_count <= length content)%nat ->
  (length content < (k + n) * record_size lat_count lon_count)%nat ->
  read_days lat_count lon_count (seq k n)
    (drop (k * record_size lat_count lon_count) content, data)
  = Uncaught "struct.error".
Proof.
  revert k data. induction n as [|n IH]; intros k data Hlo Hhi; [lia|].
  cbn [seq read_days file_read fst snd]. unfold struct_unpack.
  destruct (decide ((k + 1) * record_size lat_count lon_count
                    <= length content)%nat) as [Hfull|Hpart].
  - rewrite decide_True; last first.
    { rewrite length_take, length_drop. unfold record_size in *. nia. }
    cbn [bind]. unfold reshape.
    rewrite decide_True; last first.
    { apply unpack_f32s_length. rewrite length_take, length_drop.
      unfold record_size in *. nia. }
    cbn [bind]. rewrite drop_drop.
    replace (k * record_size lat_count lon_count
             + lat_count * lon_count * 4)%nat
      with (S k * record_size lat_count lon_count)%nat
      by (unfold record_size; lia).
    apply IH; lia.
  - rewrite decide_False; [done|].
    rewrite length_take, length_drop. unfold record_size in *. nia.
Qed.

(** A file that is shorter than the records of its days: [read_data] does
    not return, and does not exit with a diagnostic either; the
    [struct.error] of the first record that is not whole is not caught. *)
Theorem read_data_short_file (fs : FileSystem) (prog_input : ProgInput)
    (spec : DatasetSpec) (content : list byte) :
  DATA_TYPES !! in_type prog_input = Some spec ->
  0 < in_days prog_input ->
  fs_open fs (in_filename prog_input) = Some content ->
  Z.of_nat (length content)
  < in_days prog_input
    * Z.of_nat (record_size (length (lats spec)) (length (lons spec))) ->
  read_data fs prog_input = Uncaught "struct.error".
Proof.
  intros Hspec Hdays Hopen Hshort.
  unfold read_data. rewrite (dict_get_Some _ _ _ Hspec). cbn [bind].
  rewrite decide_False by lia. cbn [bind].
  unfold nan_array at 1. rewrite lookup_replicate_2 by lia. cbn [bind].
  rewrite Hopen. cbn [bind].
  rewrite (read_days_short _ _ content (Z.to_nat (in_days prog_input)) 0);
    [done|simpl; lia|].
  apply Nat2Z.inj_lt. rewrite Nat2Z.inj_mul. simpl (0 + _)%nat. lia.
Qed.

Lemma read_data_short_file_witness :
  read_data Demo.fs
    {| in_filename := "/abs/obs/short_min_2001.grd";
       in_size := 1403061;
       in_type := "mintemp";
       in_days := 365;
       in_year := 2001;
       in_year_match := true |} = Uncaught "struct.error".
Proof.
  destruct (DATA_TYPES_defined "mintemp") as [spec Hspec]; [auto|].
  apply (read_data_short_file Demo.fs
           {| in_filename := "/abs/obs/short_min_2001.grd";
              in_size := 1403061;
              in_type := "mintemp";
              in_days := 365;
              in_year := 2001;
              in_year_match := true |}
           spec (replicate 3843 x00) Hspec).
  - cbn [in_days]. lia.
  - reflexivity.
  - destruct (DATA_TYPES_keys _ _ Hspec)
      as [(Hty & _)|[(_ & Hlat & Hlon & _)|(Hty & _)]]; [done| |done].
    rewrite length_replicate, Hlat, Hlon. cbn [in_days]. unfold record_size. lia.
Defined.

(** A record of the file is a record of every beginning of the file that
    holds it. *)
Lemma take_drop_prefix {A : Type} (m r n : nat) (l : list A) :
  (m + r <= n)%nat -> take r (drop m (take n l)) = take r (drop m l).
Proof.
  intros Hle. rewrite !take_drop_commute, take_take.
  by replace ((m + r) `min` n)%nat with (m + r)%nat by lia.
Qed.

Lemma day_grid_prefix (lat_count lon_count : nat) (c1 c2 : list byte)
    (n d : nat) :
  take n c1 = take n c2 ->
  ((d + 1) * record_size lat_count lon_count <= n)%nat ->
  day_grid lat_count lon_count c1 d = day_grid lat_count lon_count c2 d.
Proof.
  intros Heq Hd. unfold day_grid.
  rewrite <- (take_drop_prefix _ _ n c1) by lia.
  rewrite <- (take_drop_prefix _ _ n c2) by lia.
  by rewrite Heq.
Qed.

(** [read_data] looks at the records of the days and at nothing behind
    them: two files that agree on their first
    [days * lat_count * lon_count * 4] bytes give the same result, be it
    the data or the error. *)
Theorem read_data_reads_only_records (fs1 fs2 : FileSystem)
    (prog_input : ProgInput) (spec : DatasetSpec) (c1 c2 : list byte) :
  DATA_TYPES !! in_type prog_input = Some spec ->
  fs_open fs1 (in_filename prog_input) = Some c1 ->
  fs_open fs2 (in_filename prog_input) = Some c2 ->
  take (Z.to_nat (in_days prog_input)
        * record_size (length (lats spec)) (length (lons spec))) c1
  = take (Z.to_nat (in_days prog_input)
          * record_size (length (lats spec)) (length (lons spec))) c2 ->
  read_data fs1 prog_input = read_data fs2 prog_input.
Proof.
  intros Hspec Hopen1 Hopen2 Heq.
  unfold read_data. rewrite (dict_get_Some _ _ _ Hspec). cbn [bind].
  set (nlat := length (lats spec)) in *.
  set (nlon := length (lons spec)) in *.
  set (n := Z.to_nat (in_days prog_input)) in *.
  destruct (decide (in_days prog_input < 0)); [done|]. cbn [bind].
  destruct (nan_array n nlat nlon !! 0%nat); [|done]. cbn [bind].
  rewrite Hopen1, Hopen2. cbn [bind].
  assert (length (take (n * record_size nlat nlon) c1)
          = length (take (n * record_size nlat nlon) c2)) as Hlen
    by (by rewrite Heq).
  rewrite !length_take in Hlen.
  destruct (decide (n * record_size nlat nlon <= length c1)%nat) as [Hfull|Hpart].
  - destruct (read_days_spec nlat nlon c1 n 0 (nan_array n nlat nlon))
      as (d1 & Hrun1 & Hlen1 & Hnew1 & _).
    { simpl. lia. }
    { unfold nan_array. rewrite length_replicate. lia. }
    destruct (read_days_spec nlat nlon c2 n 0 (nan_array n nlat nlon))
      as (d2 & Hrun2 & Hlen2 & Hnew2 & _).
    { simpl. lia. }
    { unfold nan_array. rewrite length_replicate. lia. }
    change (drop (0 * record_size nlat nlon) c1) with c1 in Hrun1.
    change (drop (0 * record_size nlat nlon) c2) with c2 in Hrun2.
    rewrite Hrun1, Hrun2. cbn [bind snd]. do 2 f_equal.
    unfold nan_array in Hlen1, Hlen2. rewrite length_replicate in Hlen1, Hlen2.
    apply list_eq. intros d.
    destruct (decide (d < n)%nat) as [Hd|Hd].
    + rewrite Hnew1, Hnew2 by lia. f_equal.
      apply (day_grid_prefix _ _ _ _ (n * record_size nlat nlon)); [done|].
      pose proof (Nat.mul_le_mono_r (d + 1) n (record_size nlat nlon)). lia.
    + rewrite !lookup_ge_None_2 by lia. done.
  - rewrite (read_days_short nlat nlon c1 n 0) by (simpl; lia).
    rewrite (read_days_short nlat nlon c2 n 0) by (simpl; lia).
    done.
Qed.

Lemma read_data_reads_only_records_witness :
  read_data (Demo.single_file "day.grd" (replicate 3844 x00)) Demo.one_day
  = read_data (Demo.single_file "day.grd" (replicate 3844 x00 ++ [xff]))
      Demo.one_day.
Proof.
  destruct (DATA_TYPES_defined "mintemp") as [spec Hspec]; [auto|].
  apply (read_data_reads_only_records _ _ Demo.one_day spec
           (replicate 3844 x00) (replicate 3844 x00 ++ [xff]) Hspec).
  - reflexivity.
  - reflexivity.
  - destruct (DATA_TYPES_keys _ _ Hspec)
      as [(Hty & _)|[(_ & Hlat & Hlon & _)|(Hty & _)]]; [done| |done].
    rewrite Hlat, Hlon.
    change (Z.to_nat (in_days Demo.one_day) * record_size 31 31)%nat
      with 3844%nat.
    rewrite take_app_le by (rewrite length_replicate; lia). done.
Defined.

(** ** The whole run *)

(** A file that holds the records of all the days is read to the end of
    the last of them. *)
Lemma read_data_full_file (fs : FileSystem) (prog_input : ProgInput)
    (spec : DatasetSpec) (content : list byte) :
  DATA_TYPES !! in_type prog_input = Some spec ->
  0 < in_days prog_input ->
  fs_open fs (in_filename prog_input) = Some content ->
  (Z.to_nat (in_days prog_input)
   * record_size (length (lats spec)) (length (lons spec))
   <= length content)%nat ->
  exists data : list grid,
    read_data fs prog_input
    = Ok {| pd_lats := lats spec;
            pd_lons := lons spec;
            pd_nlats := length (lats spec);
            pd_nlons := length (lons spec);
            pd_type := in_type prog_input;
            pd_year := in_year prog_input;
            pd_days := in_days prog_input;
            pd_fill := fill spec;
            pd_data := data |}
    /\ length data = Z.to_nat (in_days prog_input)
    /\ (forall d, (d < Z.to_nat (in_days prog_input))%nat ->
          data !! d
          = Some (day_grid (length (lats spec)) (length (lons spec))
                    content d)).
Proof.
  intros Hspec Hdays Hopen Hlen.
  set (nlat := length (lats spec)) in *.
  set (nlon := length (lons spec)) in *.
  set (n := Z.to_nat (in_days prog_input)) in *.
  destruct (read_days_spec nlat nlon content n 0 (nan_array n nlat nlon))
    as (data & Hrun & Hlen' & Hnew & _).
  { exact Hlen. }
  { unfold nan_array. rewrite length_replicate. lia. }
  change (drop (0 * record_size nlat nlon) content) with content in Hrun.
  unfold nan_array in Hlen'. rewrite length_replicate in Hlen'.
  exists data. split; [|split; [done|]].
  - unfold read_data. rewrite (dict_get_Some _ _ _ Hspec). cbn [bind].
    rewrite decide_False by lia. cbn [bind]. fold nlat nlon n.
    unfold nan_array at 1. rewrite lookup_replicate_2 by lia. cbn [bind].
    rewrite Hopen. cbn [bind]. rewrite Hrun. cbn [bind snd]. reflexivity.
  - intros d Hd. apply Hnew. lia.
Qed.

Lemma main_stages (fs : FileSystem) (prog_options : Options)
    (prog_input0 prog_input : ProgInput) (prog_output : gmap string string)
    (prog_data : ProgData) :
  get_input fs prog_options = Ok prog_input0 ->
  check_input prog_options prog_input0 = Ok prog_input ->
  check_output fs prog_options prog_input = Ok prog_output ->
  read_data fs prog_input = Ok prog_data ->
  main fs prog_options = write_data fs prog_data prog_output.
Proof.
  intros Hget Hcheck Hout Hread. unfold main.
  rewrite Hget. cbn [bind]. rewrite Hcheck. cbn [bind].
  rewrite Hout. cbn [bind]. by rewrite Hread.
Qed.

Lemma main_Ok_stages (fs : FileSystem) (prog_options : Options)
    (ds : NcDataset) :
  main fs prog_options = Ok ds ->
  exists (prog_input0 prog_input : ProgInput)
         (prog_output : gmap string string) (prog_data : ProgData),
    get_input fs prog_options = Ok prog_input0
    /\ check_input prog_options prog_input0 = Ok prog_input
    /\ check_output fs prog_options prog_input = Ok prog_output
    /\ read_data fs prog_input = Ok prog_data
    /\ write_data fs prog_data prog_output = Ok ds.
Proof.
  unfold main.
  destruct (get_input fs prog_options) as [p0| |] eqn:Hget;
    cbn [bind]; [|done..].
  destruct (check_input prog_options p0) as [p| |] eqn:Hcheck;
    cbn [bind]; [|done..].
  destruct (check_output fs prog_options p) as [po| |] eqn:Hout;
    cbn [bind]; [|done..].
  destruct (read_data fs p) as [pd| |] eqn:Hread; cbn [bind]; [|done..].
  intros Hw. exists p0, p, po, pd. auto.
Qed.

(** The run from the command line to the NetCDF file, for an input that
    the checks accept and a file of the size found for it.  When the
    output file cannot be created, the error of [nc.Dataset] ends the run.
    Otherwise [main] returns; the file written is the one [check_output]
    settled on; its dimensions are the unlimited time and the latitudes and
    longitudes of the type; its variables are the time with the days
    counted from 0, the two axes of the grid, and the data variable of the
    type, which gets one grid for each day, decoded from the record of that
    day. *)
Theorem main_converts (fs : FileSystem) (prog_options : Options)
    (prog_input0 prog_input : ProgInput) (prog_output : gmap string string)
    (content : list byte) (f : string) :
  options_wf prog_options ->
  get_input fs prog_options = Ok prog_input0 ->
  check_input prog_options prog_input0 = Ok prog_input ->
  check_output fs prog_options prog_input = Ok prog_output ->
  prog_output !! "filename" = Some f ->
  fs_open fs (in_filename prog_input) = Some content ->
  Z.of_nat (length content) = in_size prog_input ->
  match fs_create fs f with
  | Some e => main fs prog_options = Uncaught e
  | None =>
      exists (ds : NcDataset) (spec : DatasetSpec) (data : list grid),
        main fs prog_options = Ok ds
        /\ DATA_TYPES !! in_type prog_input = Some spec
        /\ nc_path ds = f
        /\ nc_format ds = "NETCDF4"
        /\ nc_dimensions ds
           = [("time", None);
              ("latitude", Some (Z.of_nat (length (lats spec))));
              ("longitude", Some (Z.of_nat (length (lons spec))))]
        /\ var_name <$> nc_variables ds
           = ["time"; "latitude"; "longitude"; nc_var spec]
        /\ var_units <$> nc_variables ds
           = ["days since " +:+ pretty (in_year prog_input)
              +:+ "-01-01 00:00:00.0";
              "degrees_north"; "degrees_east"; nc_units spec]
        /\ var_values <$> nc_variables ds
           = [NcInts (Z.of_nat <$> seq 0 (Z.to_nat (in_days prog_input)));
              NcAxis (lats spec); NcAxis (lons spec); NcGrids data]
        /\ length data = Z.to_nat (in_days prog_input)
        /\ (forall d, (d < Z.to_nat (in_days prog_input))%nat ->
              data !! d
              = Some (day_grid (length (lats spec)) (length (lons spec))
                        content d))
  end.
Proof.
  intros Hwf Hget Hcheck Hout Hf Hopen Hsize.
  destruct (validated_input _ _ _ _ Hwf Hget Hcheck)
    as (spec & Hspec & Hdays & Hfits).
  destruct (read_data_full_file fs prog_input spec content Hspec)
    as (data & Hread & Hlen & Hnew); [lia|exact Hopen| |].
  { apply Nat2Z.inj_le. unfold record_size.
    rewrite !Nat2Z.inj_mul, Z2Nat.id, Hsize by lia. simpl (Z.of_nat 4). lia. }
  rewrite (main_stages _ _ _ _ _ _ Hget Hcheck Hout Hread).
  unfold write_data. rewrite (dict_get_Some _ _ _ Hf). cbn [bind].
  destruct (fs_create fs f) as [e|]; cbn [bind pd_type]; [reflexivity|].
  rewrite (dict_get_Some _ _ _ Hspec). cbn [bind].
  eexists _, spec, data. split; [reflexivity|].
  split; [exact Hspec|]. split; [reflexivity|].
  split; [reflexivity|]. split; [reflexivity|]. split; [reflexivity|].
  split; [reflexivity|]. split; [reflexivity|]. split; [exact Hlen|exact Hnew].
Qed.

Lemma main_converts_witness :
  (exists ds : NcDataset,
     main Sample.fs (Sample.options "temp_min_2001.grd") = Ok ds
     /\ nc_path ds = "/data/temp_min_2001.nc"
     /\ var_name <$> nc_variables ds
        = ["time"; "latitude"; "longitude"; "min_temp"])
  /\ main Sample.fs
       (Sample.with_outfile (Sample.options "temp_min_2001.grd")
          "/no/such/dir/out.nc")
     = Uncaught "PermissionError".
Proof.
  split.
  - pose proof (main_converts Sample.fs (Sample.options "temp_min_2001.grd")
                  Demo.min_2001 Demo.min_2001 Demo.min_output
                  Sample.temp_bytes "/data/temp_min_2001.nc"
                  I ltac:(vm_compute; reflexivity)
                  ltac:(vm_compute; reflexivity)
                  ltac:(vm_compute; reflexivity)
                  ltac:(vm_compute; reflexivity) eq_refl) as H.
    assert (fs_create Sample.fs "/data/temp_min_2001.nc" = None) as Hc
      by reflexivity.
    rewrite Hc in H.
    destruct H as (ds & spec & data & Hmain & Hspec & Hpath & _ & _
                   & Hnames & _).
    { unfold Sample.temp_bytes. rewrite length_replicate.
      cbn [in_size Demo.min_2001]. lia. }
    exists ds. split; [exact Hmain|]. split; [exact Hpath|].
    rewrite Hnames.
    destruct (DATA_TYPES_keys _ _ Hspec)
      as [(Hty & _)|[(_ & _ & _ & -> & _)|(Hty & _)]]; done.
  - pose proof (main_converts Sample.fs
                  (Sample.with_outfile (Sample.options "temp_min_2001.grd")
                     "/no/such/dir/out.nc")
                  Demo.min_2001 Demo.min_2001 Demo.no_dir_output
                  Sample.temp_bytes "/no/such/dir/out.nc"
                  I ltac:(vm_compute; reflexivity)
                  ltac:(vm_compute; reflexivity)
                  ltac:(vm_compute; reflexivity)
                  ltac:(vm_compute; reflexivity) eq_refl) as H.
    assert (fs_create Sample.fs "/no/such/dir/out.nc"
            = Some "PermissionError") as Hc by reflexivity.
    rewrite Hc in H. apply H.
    unfold Sample.temp_bytes. rewrite length_replicate.
    cbn [in_size Demo.min_2001]. lia.
Defined.

(** *** How a run can end *)




Lemma write_data_outcomes (fs : FileSystem) (prog_data : ProgData)
    (prog_output : gmap string string) (f : string) :
  prog_output !! "filename" = Some f ->
  is_Some (DATA_TYPES !! pd_type prog_data) ->
  match fs_create fs f with
  | Some e => write_data fs prog_data prog_output = Uncaught e
  | None => exists ds, write_data fs prog_data prog_output = Ok ds
  end.
Proof.
  intros Hf [spec Hspec]. unfold write_data.
  rewrite (dict_get_Some _ _ _ Hf). cbn [bind].
  destruct (fs_create fs f) as [e|]; cbn [bind]; [done|].
  rewrite (dict_get_Some _ _ _ Hspec). cbn [bind]. by eexists.
Qed.



(** *** What stands behind a file that was written *)

Lemma read_data_Ok_inv (fs : FileSystem) (prog_input : ProgInput)
    (prog_data : ProgData) :
  read_data fs prog_input = Ok prog_data ->
  pd_type prog_data = in_type prog_input
  /\ pd_year prog_data = in_year prog_input
  /\ pd_days prog_data = in_days prog_input
  /\ is_Some (fs_open fs (in_filename prog_input)).
Proof.
  unfold read_data.
  destruct (dict_get DATA_TYPES (in_type prog_input)) as [spec| |];
    cbn [bind]; [|done..].
  destruct (decide (in_days prog_input < 0)); cbn [bind]; [done|].
  destruct (nan_array _ _ _ !! 0%nat); cbn [bind]; [|done].
  destruct (fs_open fs (in_filename prog_input)) as [content|];
    cbn [bind]; [|done].
  destruct (read_days _ _ _ _) as [st| |]; cbn [bind]; [|done..].
  intros [= <-]. cbn. split; [done|]. split; [done|]. split; [done|].
  by eexists.
Qed.

Lemma write_data_Ok_inv (fs : FileSystem) (prog_data : ProgData)
    (prog_output : gmap string string) (ds : NcDataset) :
  write_data fs prog_data prog_output = Ok ds ->
  prog_output !! "filename" = Some (nc_path ds)
  /\ var_units <$> head (nc_variables ds)
     = Some ("days since " +:+ pretty (pd_year prog_data)
             +:+ "-01-01 00:00:00.0")
  /\ var_values <$> head (nc_variables ds)
     = Some (NcInts (Z.of_nat <$> seq 0 (Z.to_nat (pd_days prog_data)))).
Proof.
  unfold write_data, dict_get.
  destruct (prog_output !! "filename") as [f|]; cbn [bind]; [|done].
  destruct (fs_create fs f) as [e|]; cbn [bind]; [done|].
  destruct (DATA_TYPES !! pd_type prog_data) as [spec|]; cbn [bind]; [|done].
  by intros [= <-].
Qed.

Lemma main_min_2001_returns :
  exists ds, main Sample.fs (Sample.options "temp_min_2001.grd") = Ok ds.
Proof.
  destruct (DATA_TYPES_defined "mintemp") as [spec Hspec]; [auto|].
  destruct (read_data_full_file Sample.fs Demo.min_2001 spec
              Sample.temp_bytes Hspec) as (data & Hread & _).
  { cbn [in_days Demo.min_2001]. lia. }
  { reflexivity. }
  { destruct (DATA_TYPES_keys _ _ Hspec)
      as [(Hty & _)|[(_ & Hlat & Hlon & _)|(Hty & _)]]; [done| |done].
    rewrite Hlat, Hlon. unfold Sample.temp_bytes.
    rewrite length_replicate. cbn [in_days Demo.min_2001].
    unfold record_size. lia. }
  rewrite (main_stages Sample.fs (Sample.options "temp_min_2001.grd")
             Demo.min_2001 Demo.min_2001 Demo.min_output _
             ltac:(vm_compute; reflexivity) ltac:(vm_compute; reflexivity)
             ltac:(vm_compute; reflexivity) Hread).
  apply (write_data_outcomes Sample.fs _ Demo.min_output
           "/data/temp_min_2001.nc").
  - vm_compute. reflexivity.
  - cbn [pd_type]. by eexists.
Qed.

(** A NetCDF file is written only behind all the checks: the input file
    exists, has one of the four sizes and can be opened; the output file
    did not exist, or --clobber was given; the year the time axis counts
    from is one of 1900 to 2100, and the axis has 366 days when that year
    is a multiple of four and 365 days otherwise. *)
Theorem main_writes_only_checked (fs : FileSystem) (prog_options : Options)
    (ds : NcDataset) :
  main fs prog_options = Ok ds ->
  exists sz year days : Z,
    fs_getsize fs (opt_infile prog_options) = Some sz
    /\ ((sz = 25425901 /\ days = 365) \/ (sz = 25495561 /\ days = 366)
        \/ (sz = 1403061 /\ days = 365) \/ (sz = 1406905 /\ days = 366))
    /\ is_Some (fs_open fs (fs_abspath fs (opt_infile prog_options)))
    /\ (fs_getsize fs (nc_path ds) = None \/ opt_clobber prog_options = true)
    /\ 1900 <= year <= 2100
    /\ (days = 366 <-> year mod 4 = 0)
    /\ var_units <$> head (nc_variables ds)
       = Some ("days since " +:+ pretty year +:+ "-01-01 00:00:00.0")
    /\ var_values <$> head (nc_variables ds)
       = Some (NcInts (Z.of_nat <$> seq 0 (Z.to_nat days))).
Proof.
  intros (p0 & p & po & pd & Hget & Hcheck & Hout & Hread & Hwrite)
    %main_Ok_stages.
  apply get_input_Ok_inv in Hget
    as (sz & t & d & Hsz & Htd & _ & Hd & Hname & _).
  apply check_input_Ok_inv in Hcheck
    as (_ & _ & Hrange & [H366 H365] & ->).
  apply check_output_Ok_shape in Hout
    as (f & var & units & Hpo & _ & Hfree & _).
  apply read_data_Ok_inv in Hread as (_ & Hyear & Hdays & Hopen).
  apply write_data_Ok_inv in Hwrite as (Hf & Hunits & Hvalues).
  cbn [in_year in_days in_filename] in *.
  rewrite Hyear in Hunits. rewrite Hdays, Hd in Hvalues.
  rewrite Hname in Hopen. rewrite Hd in H366, H365.
  assert (f = nc_path ds) as ->.
  { rewrite Hpo in Hf. rewrite lookup_insert_ne in Hf by done.
    rewrite lookup_insert_ne in Hf by done.
    rewrite lookup_insert_eq in Hf. by injection Hf. }
  apply size_type_days_inv in Htd.
  exists sz, (effective_year prog_options p0).1, d.
  split; [done|]. split.
  { destruct Htd as [(-> & _ & ->)|[(-> & _ & ->)|[(-> & _ & ->)|(-> & _ & ->)]]];
      auto 6. }
  split; [done|]. split; [done|]. split; [done|].
  split; [|by split].
  split; [done|]. intros Hmod.
  destruct Htd as [(_ & _ & ->)|[(_ & _ & ->)|[(_ & _ & ->)|(_ & _ & ->)]]];
    try done; by destruct H365.
Qed.

Lemma main_writes_only_checked_witness :
  exists (ds : NcDataset) (sz year days : Z),
    main Sample.fs (Sample.options "temp_min_2001.grd") = Ok ds
    /\ fs_getsize Sample.fs "temp_min_2001.grd" = Some sz
    /\ 1900 <= year <= 2100
    /\ (days = 366 <-> year mod 4 = 0).
Proof.
  destruct main_min_2001_returns as [ds Hds].
  destruct (main_writes_only_checked Sample.fs
              (Sample.options "temp_min_2001.grd") ds Hds)
    as (sz & year & days & Hsz & _ & _ & _ & Hrange & Hleap & _).
  exists ds, sz, year, days.
  split; [exact Hds|]. split; [exact Hsz|]. split; [exact Hrange|exact Hleap].
Defined.
